(** * Alert generator: a shallow embedding of [src/generate_alerts.py]

    The generator reads [rules.yml], renders one [create_alert] statement per
    configured alert and writes the batch to [src/generated_alerts.sql].

    Python text is modelled as [string], read as the UTF-8 bytes of the text.
    Every character the program looks for (the quote, the braces, the
    newline) is ASCII, and an ASCII byte never occurs inside the encoding of
    another character, so searching and replacing on the bytes is searching
    and replacing on the characters. *)

From Stdlib Require Import ZArith String Ascii List Bool Arith Lia DecimalString.
Import ListNotations.
Open Scope string_scope.
Set Warnings "-register-all".

(** ** Values loaded from YAML *)

(** What [yaml.safe_load] can hand to the generator.  Mappings keep their
    insertion order, as Python dictionaries do; a key that is not text can
    never equal one of the literal keys the program looks up, so mappings are
    given with their text keys.  [VOther] stands for the remaining YAML
    values (floats, sequences, sets, timestamps, binary): they are not
    subscriptable by a text key, have none of the methods the program calls,
    and their printed form is left unmodelled. *)
Inductive value : Type :=
| VNone
| VBool (b : bool)
| VInt (z : Z)
| VStr (s : string)
| VDict (d : list (string * value))
| VOther.

(** The exception classes the program can meet. *)
Inductive exn : Type :=
| FileNotFoundError
| YAMLError
| KeyError
| TypeError
| AttributeError
| ValueError
| IndexError
| OtherException.

(** The result of running a piece of the program: a value, a raised
    exception, or [Beyond] when the input leaves the modelled fragment of
    Python (the printed form of a float or a container, a replacement field
    with a conversion or a format specification, lower-casing outside
    ASCII). Nothing is claimed about a [Beyond] run. *)
Inductive outcome (A : Type) : Type :=
| Ok (a : A)
| Raise (e : exn)
| Beyond.
Arguments Ok {A} a.
Arguments Raise {A} e.
Arguments Beyond {A}.

Definition bind {A B : Type} (m : outcome A) (k : A -> outcome B) : outcome B :=
  match m with
  | Ok a => k a
  | Raise e => Raise e
  | Beyond => Beyond
  end.

Notation "x <- m ;; k" := (bind m (fun x => k))
  (at level 61, m at next level, right associativity).

(** ** Text helpers *)

Definition nl : string := String "010" EmptyString.
Definition quote : ascii := "'"%char.

(** [d[key]] lookup in an insertion-ordered mapping. *)
Fixpoint lookup (key : string) (d : list (string * value)) : option value :=
  match d with
  | [] => None
  | (k, v) :: d' => if String.eqb key k then Some v else lookup key d'
  end.

(** [obj[key]] for a text key. *)
Definition getitem (obj : value) (key : string) : outcome value :=
  match obj with
  | VDict d =>
      match lookup key d with
      | Some v => Ok v
      | None => Raise KeyError
      end
  | _ => Raise TypeError
  end.

(** The bound method [obj.get]: only mappings have it. *)
Definition get_method (obj : value) : outcome (string -> value -> value) :=
  match obj with
  | VDict d =>
      Ok (fun key default =>
            match lookup key d with
            | Some v => v
            | None => default
            end)
  | _ => Raise AttributeError
  end.

(** [obj.items()]. *)
Definition items (obj : value) : outcome (list (string * value)) :=
  match obj with
  | VDict d => Ok d
  | _ => Raise AttributeError
  end.

(** [str(z)] for an integer. *)
Definition str_of_Z (z : Z) : string := NilZero.string_of_int (Z.to_int z).

(** [str(v)], which is also [format(v, '')], the way an f-string or a plain
    replacement field prints a value. *)
Definition py_str (v : value) : outcome string :=
  match v with
  | VNone => Ok "None"
  | VBool true => Ok "True"
  | VBool false => Ok "False"
  | VInt z => Ok (str_of_Z z)
  | VStr s => Ok s
  | VDict _ => Beyond
  | VOther => Beyond
  end.

Definition is_ascii (c : ascii) : bool := (nat_of_ascii c <? 128)%nat.
Definition is_digit (c : ascii) : bool :=
  ((48 <=? nat_of_ascii c) && (nat_of_ascii c <=? 57))%nat.
Definition is_upper (c : ascii) : bool :=
  ((65 <=? nat_of_ascii c) && (nat_of_ascii c <=? 90))%nat.

Definition lower_char (c : ascii) : ascii :=
  if is_upper c then ascii_of_nat (nat_of_ascii c + 32) else c.

Fixpoint string_forallb (p : ascii -> bool) (s : string) : bool :=
  match s with
  | EmptyString => true
  | String c s' => p c && string_forallb p s'
  end.

Fixpoint string_map (f : ascii -> ascii) (s : string) : string :=
  match s with
  | EmptyString => EmptyString
  | String c s' => String (f c) (string_map f s')
  end.

(** [s.lower()]; on ASCII text it lowers the letters A-Z. *)
Definition py_lower (s : string) : outcome string :=
  if string_forallb is_ascii s then Ok (string_map lower_char s) else Beyond.

(** [s.replace(old, new)] for a one-character [old]. *)
Fixpoint replace_char (old : ascii) (new : string) (s : string) : string :=
  match s with
  | EmptyString => EmptyString
  | String c s' =>
      if Ascii.eqb c old then new ++ replace_char old new s'
      else String c (replace_char old new s')
  end.

(** [sep.join(parts)]. *)
Fixpoint py_join (sep : string) (parts : list string) : string :=
  match parts with
  | [] => ""
  | [p] => p
  | p :: ps => p ++ sep ++ py_join sep ps
  end.

(** ** [str.format] with keyword arguments only *)

(** Resolving a plain field name against the keyword arguments.  There are
    no positional arguments, so an empty name (automatic numbering) and a
    numeric name both raise; any other name is a keyword. *)
Definition get_field (kwargs : list (string * value)) (name : string)
  : outcome string :=
  if negb (string_forallb is_ascii name) then Beyond
  else if String.eqb name "" then Raise IndexError
  else if string_forallb is_digit name then
    if (String.length name <? 10)%nat then Raise IndexError else Beyond
  else
    match lookup name kwargs with
    | Some v => py_str v
    | None => Raise KeyError
    end.

(** The scanner of the format string, one character at a time. *)
Inductive scan_state : Type :=
| Text                    (* literal text *)
| Opened                  (* just read an opening brace *)
| Closed                  (* just read a closing brace in literal text *)
| Field (name : string).  (* inside a replacement field *)

Definition is_field_special (c : ascii) : bool :=
  Ascii.eqb c ":" || Ascii.eqb c "!" || Ascii.eqb c "[" || Ascii.eqb c ".".

Definition emit (c : ascii) (r : outcome string) : outcome string :=
  s <- r ;; Ok (String c s).

Fixpoint scan (kwargs : list (string * value)) (st : scan_state) (s : string)
  : outcome string :=
  match s with
  | EmptyString =>
      match st with
      | Text => Ok ""
      | _ => Raise ValueError
      end
  | String c s' =>
      match st with
      | Text =>
          if Ascii.eqb c "{" then scan kwargs Opened s'
          else if Ascii.eqb c "}" then scan kwargs Closed s'
          else emit c (scan kwargs Text s')
      | Opened =>
          if Ascii.eqb c "{" then emit "{" (scan kwargs Text s')
          else if Ascii.eqb c "}" then
            v <- get_field kwargs "" ;;
            r <- scan kwargs Text s' ;; Ok (v ++ r)
          else if is_field_special c then Beyond
          else scan kwargs (Field (String c "")) s'
      | Closed =>
          if Ascii.eqb c "}" then emit "}" (scan kwargs Text s')
          else Raise ValueError
      | Field name =>
          if Ascii.eqb c "}" then
            v <- get_field kwargs name ;;
            r <- scan kwargs Text s' ;; Ok (v ++ r)
          else if Ascii.eqb c "{" then Raise ValueError
          else if is_field_special c then Beyond
          else scan kwargs (Field (name ++ String c "")) s'
      end
  end.

(** The bound method [obj.format]: only text has it. *)
Definition format_method (obj : value)
  : outcome (list (string * value) -> outcome string) :=
  match obj with
  | VStr s => Ok (fun kwargs => scan kwargs Text s)
  | _ => Raise AttributeError
  end.

(** ** f-strings *)

(** An f-string is a sequence of literal chunks and of substitutions, which
    are evaluated and printed from left to right. *)
Inductive piece : Type :=
| Lit (s : string)
| Sub (e : outcome string).

Fixpoint fstring (ps : list piece) : outcome string :=
  match ps with
  | [] => Ok ""
  | Lit s :: ps' => r <- fstring ps' ;; Ok (s ++ r)
  | Sub e :: ps' => v <- e ;; r <- fstring ps' ;; Ok (v ++ r)
  end.

(** The substitution [{obj['key']}]. *)
Definition show_item (obj : value) (key : string) : outcome string :=
  v <- getitem obj key ;; py_str v.

(** ** The alert renderer *)

Definition default_cron : string := "0 0 10 1/7 * ?".

(** [generate_alert_sql(alert_config, global_config)]. *)
Definition generate_alert_sql (alert_config global_config : value)
  : outcome string :=
  template <- getitem alert_config "query_template" ;;
  format <- format_method template ;;
  catalog <- getitem global_config "catalog" ;;
  schema <- getitem global_config "schema" ;;
  query_text <- format [("catalog", catalog); ("schema", schema)] ;;
  fstring
    [ Lit "-- "; Sub (show_item alert_config "description");
      Lit (nl ++ "SELECT create_alert(" ++ nl ++ "  display_name => '");
      Sub (show_item alert_config "display_name");
      Lit ("'," ++ nl ++ "  query_text => '");
      Sub (Ok (replace_char quote "''" query_text));
      Lit ("'," ++ nl ++ "  warehouse_id => ");
      Sub (show_item global_config "warehouse_id");
      Lit ("," ++ nl ++ "  comparison_operator => '");
      Sub (show_item alert_config "comparison_operator");
      Lit ("'," ++ nl ++ "  threshold_value => ");
      Sub (show_item alert_config "threshold_value");
      Lit ("," ++ nl ++ "  empty_result_state => '");
      Sub (get <- get_method alert_config ;;
           py_str (get "empty_result_state" (VStr "UNKNOWN")));
      Lit ("'," ++ nl ++ "  user_email => ");
      Sub (show_item global_config "user_email");
      Lit ("," ++ nl ++ "  notify_on_ok => ");
      Sub (v <- getitem global_config "notify_on_ok" ;;
           s <- py_str v ;; py_lower s);
      Lit ("," ++ nl ++ "  retrigger_seconds => ");
      Sub (show_item global_config "retrigger_seconds");
      Lit ("," ++ nl ++ "  cron_schedule => '");
      Sub (get <- get_method alert_config ;;
           global_get <- get_method global_config ;;
           py_str (get "cron_schedule"
                     (global_get "cron_schedule" (VStr default_cron))));
      Lit ("'," ++ nl ++ "  timezone_id => '");
      Sub (show_item global_config "timezone_id");
      Lit ("'," ++ nl ++ "  pause_status => '");
      Sub (show_item global_config "pause_status");
      Lit ("'" ++ nl ++ ") as alert;") ].

(** ** The batch renderer *)

Definition separator : string := "-- COMMAND ----------".

(** [parts.append(x)]. *)
Definition list_append (parts : list string) (x : string) : list string :=
  parts ++ [x].

(** The [for] loop of [generate_all_alerts_sql] over [alerts.items()]. *)
Fixpoint render_loop (global_config : value) (entries : list (string * value))
    (sql_parts : list string) : outcome (list string) :=
  match entries with
  | [] => Ok sql_parts
  | (alert_name, alert_config) :: rest =>
      sql <- generate_alert_sql alert_config global_config ;;
      render_loop global_config rest
        (list_append
           (list_append (list_append (list_append sql_parts sql) "") separator)
           "")
  end.

(** [generate_all_alerts_sql(rules)]. *)
Definition generate_all_alerts_sql (rules : value) : outcome string :=
  global_config <- getitem rules "global" ;;
  alerts <- getitem rules "alerts" ;;
  entries <- items alerts ;;
  sql_parts <- render_loop global_config entries
                 [ "-- Databricks Security Detection Alerts";
                   "-- Generated from rules.yml";
                   "";
                   separator;
                   "" ] ;;
  Ok (py_join nl sql_parts).

(** ** The driver *)

(** What [load_rules()] does in a given run: [open] and [yaml.safe_load]
    either hand back the parsed document or raise. *)
Inductive loaded : Type :=
| Parsed (rules : value)
| LoadFails (e : exn).

(** A [print] call: plain text, or a prefix followed by the text of the
    caught exception (which is not modelled).  The console is taken to
    accept what is printed (it is UTF-8, as the interface of the program
    says); a console that refuses the glyphs is outside the model. *)
Inductive line : Type :=
| Print (text : string)
| PrintExn (prefix : string) (e : exn).

(** The part of the machine the driver touches. *)
Record world : Type := mkWorld {
  rules_yml : loaded;            (* the outcome of reading rules.yml *)
  out_file : option string;      (* src/generated_alerts.sql, if it exists *)
  out_open : option exn;         (* the error of opening it for writing *)
  out_write : option (nat * exn);
    (* the error of writing to it, if any: how many characters reach the
       file before the write (or the closing of the file) raises *)
  console : list line            (* what has been printed so far *)
}.

(** Programs that read and change the world and may raise. *)
Definition prog (A : Type) : Type := world -> outcome A * world.

Definition pret {A : Type} (a : A) : prog A := fun w => (Ok a, w).

Definition pbind {A B : Type} (m : prog A) (k : A -> prog B) : prog B :=
  fun w =>
    match m w with
    | (Ok a, w') => k a w'
    | (Raise e, w') => (Raise e, w')
    | (Beyond, w') => (Beyond, w')
    end.

Notation "x <~ m ;; k" := (pbind m (fun x => k))
  (at level 61, m at next level, right associativity).
Notation "m ;;; k" := (pbind m (fun _ => k))
  (at level 61, right associativity).

Definition lift {A : Type} (o : outcome A) : prog A := fun w => (o, w).

Definition print (l : line) : prog unit :=
  fun w =>
    (Ok tt,
     mkWorld (rules_yml w) (out_file w) (out_open w) (out_write w)
       (console w ++ [l])).

(** [load_rules()] with its default argument. *)
Definition load_rules : prog value :=
  fun w =>
    match rules_yml w with
    | Parsed rules => (Ok rules, w)
    | LoadFails e => (Raise e, w)
    end.

(** The file after a write of [content] has begun: opening it for writing
    has emptied it, and the characters written before a failure stay. *)
Definition written (w : world) (content : string) : string :=
  match out_write w with
  | Some (n, _) => substring 0 n content
  | None => content
  end.

(** [with open(output_file, 'w') as f: f.write(content)].  A failed [open]
    leaves the file as it was; a successful one truncates it, and a write
    that then fails leaves what had been written. *)
Definition write_output (content : string) : prog unit :=
  fun w =>
    match out_open w with
    | Some e => (Raise e, w)
    | None =>
        (match out_write w with
         | Some (_, e) => Raise e
         | None => Ok tt
         end,
         mkWorld (rules_yml w) (Some (written w content)) (out_open w)
           (out_write w) (console w))
    end.

(** [try: body except ...: handler]. *)
Definition try_except (body : prog unit) (handler : exn -> prog unit)
  : prog unit :=
  fun w =>
    match body w with
    | (Raise e, w') => handler e w'
    | r => r
    end.

(** [len(obj)]. *)
Definition py_len (obj : value) : outcome nat :=
  match obj with
  | VDict d => Ok (List.length d)
  | VStr _ | VOther => Beyond
  | _ => Raise TypeError
  end.

Definition output_file : string := "src/generated_alerts.sql".

(** The summary loop of [main]. *)
Fixpoint summary_loop (entries : list (string * value)) : prog unit :=
  match entries with
  | [] => pret tt
  | (alert_name, config) :: rest =>
      l1 <~ lift (fstring [ Lit "  • ";
                            Sub (show_item config "display_name");
                            Lit ": ";
                            Sub (show_item config "description") ]) ;;
      print (Print l1) ;;;
      l2 <~ lift (fstring [ Lit "    Threshold: ";
                            Sub (show_item config "comparison_operator");
                            Lit " ";
                            Sub (show_item config "threshold_value") ]) ;;
      print (Print l2) ;;;
      summary_loop rest
  end.

(** The three [except] clauses of [main]. *)
Definition handler (e : exn) : prog unit :=
  match e with
  | FileNotFoundError =>
      print (Print "❌ Error: rules.yml not found. Please ensure the file exists in the current directory.")
  | YAMLError => print (PrintExn "❌ Error parsing YAML: " e)
  | _ => print (PrintExn "❌ Unexpected error: " e)
  end.

(** [main()]. *)
Definition main : prog unit :=
  try_except
    (rules <~ load_rules ;;
     sql_content <~ lift (generate_all_alerts_sql rules) ;;
     write_output sql_content ;;;
     print (Print ("✅ Generated alerts SQL: " ++ output_file)) ;;;
     alerts <~ lift (getitem rules "alerts") ;;
     n <~ lift (py_len alerts) ;;
     print (Print ("📊 Total alerts generated: "
                   ++ NilZero.string_of_uint (Nat.to_uint n))) ;;;
     print (Print (nl ++ "📋 Alert Summary:")) ;;;
     alerts' <~ lift (getitem rules "alerts") ;;
     entries <~ lift (items alerts') ;;
     summary_loop entries)
    handler.

(** * Specification-side vocabulary *)

(** The named arguments of [create_alert], in the order the specification
    gives them. *)
Definition create_alert_args : list string :=
  [ "display_name"; "query_text"; "warehouse_id"; "comparison_operator";
    "threshold_value"; "empty_result_state"; "user_email"; "notify_on_ok";
    "retrigger_seconds"; "cron_schedule"; "timezone_id"; "pause_status" ].

(** One [name => text] line of the call. *)
Definition named_arg (arg : string * string) : string :=
  "  " ++ fst arg ++ " => " ++ snd arg.

(** A statement: the comment line with the description, then the call with
    its arguments one per line, separated by commas. *)
Definition statement (description : string) (args : list (string * string))
  : string :=
  "-- " ++ description ++ nl ++
  "SELECT create_alert(" ++ nl ++
  py_join ("," ++ nl) (map named_arg args) ++ nl ++
  ") as alert;".

(** A single-quoted SQL literal around [s], [s] taken as it is. *)
Definition quoted (s : string) : string := "'" ++ s ++ "'".

(** The value a mapping supplies under [key], if any. *)
Definition supplied (obj : value) (key : string) : option value :=
  match obj with
  | VDict d => lookup key d
  | _ => None
  end.

(** [s] occurs in [t] as a contiguous piece. *)
Definition occurs (s t : string) : Prop :=
  exists pre post, t = pre ++ s ++ post.

Fixpoint occursb (s t : string) : bool :=
  prefix s t ||
  match t with
  | EmptyString => false
  | String _ t' => occursb s t'
  end.

(** The number of single quotes of a text. *)
Fixpoint count_quotes (s : string) : nat :=
  match s with
  | EmptyString => 0
  | String c s' => (if Ascii.eqb c quote then 1 else 0) + count_quotes s'
  end.

(** Doubling every single quote, the SQL escape of a text literal. *)
Fixpoint double_quotes (s : string) : string :=
  match s with
  | EmptyString => EmptyString
  | String c s' =>
      if Ascii.eqb c quote then String quote (String quote (double_quotes s'))
      else String c (double_quotes s')
  end.



(** The cron schedule the specification resolves: the rule's, else the
    global one, else the default. *)
Definition resolved_cron (alert_config global_config : value) : value :=
  match supplied alert_config "cron_schedule" with
  | Some v => v
  | None =>
      match supplied global_config "cron_schedule" with
      | Some v => v
      | None => VStr default_cron
      end
  end.

(** The empty-result state the specification resolves: the rule's, else
    [UNKNOWN]. *)
Definition resolved_empty_result_state (alert_config : value) : value :=
  match supplied alert_config "empty_result_state" with
  | Some v => v
  | None => VStr "UNKNOWN"
  end.

(** The texts one rendering puts into the statement. *)
Record fields : Type := mkFields {
  f_description : string;
  f_display_name : string;
  f_query_text : string;          (* after substitution, before escaping *)
  f_warehouse_id : string;
  f_comparison_operator : string;
  f_threshold_value : string;
  f_empty_result_state : string;
  f_user_email : string;
  f_notify_on_ok : string;        (* after lower-casing *)
  f_retrigger_seconds : string;
  f_cron_schedule : string;
  f_timezone_id : string;
  f_pause_status : string
}.

(** The twelve argument texts, as they stand after [=>]. *)
Definition argument_texts (f : fields) : list string :=
  [ quoted (f_display_name f);
    quoted (replace_char quote "''" (f_query_text f));
    f_warehouse_id f;
    quoted (f_comparison_operator f);
    f_threshold_value f;
    quoted (f_empty_result_state f);
    f_user_email f;
    f_notify_on_ok f;
    f_retrigger_seconds f;
    quoted (f_cron_schedule f);
    quoted (f_timezone_id f);
    quoted (f_pause_status f) ].

(** Where each text comes from. *)
Record reads (alert_config global_config : value) (f : fields) : Prop :=
  mkReads {
  rd_template :
    exists template catalog schema,
      supplied alert_config "query_template" = Some (VStr template) /\
      supplied global_config "catalog" = Some catalog /\
      supplied global_config "schema" = Some schema /\
      scan [("catalog", catalog); ("schema", schema)] Text template
      = Ok (f_query_text f);
  rd_description : show_item alert_config "description" = Ok (f_description f);
  rd_display_name :
    show_item alert_config "display_name" = Ok (f_display_name f);
  rd_warehouse_id :
    show_item global_config "warehouse_id" = Ok (f_warehouse_id f);
  rd_comparison_operator :
    show_item alert_config "comparison_operator"
    = Ok (f_comparison_operator f);
  rd_threshold_value :
    show_item alert_config "threshold_value" = Ok (f_threshold_value f);
  rd_empty_result_state :
    py_str (resolved_empty_result_state alert_config)
    = Ok (f_empty_result_state f);
  rd_user_email : show_item global_config "user_email" = Ok (f_user_email f);
  rd_notify_on_ok :
    exists shown,
      show_item global_config "notify_on_ok" = Ok shown /\
      py_lower shown = Ok (f_notify_on_ok f);
  rd_retrigger_seconds :
    show_item global_config "retrigger_seconds" = Ok (f_retrigger_seconds f);
  rd_cron_schedule :
    py_str (resolved_cron alert_config global_config)
    = Ok (f_cron_schedule f);
  rd_timezone_id :
    show_item global_config "timezone_id" = Ok (f_timezone_id f);
  rd_pause_status :
    show_item global_config "pause_status" = Ok (f_pause_status f)
}.

(** The printed text of a value, empty where the printed form is not
    modelled. *)
Definition text_of (v : value) : string :=
  match py_str v with
  | Ok t => t
  | _ => ""
  end.

(** The two comment lines that open the batch document. *)
Definition header : string :=
  "-- Databricks Security Detection Alerts" ++ nl ++
  "-- Generated from rules.yml".

(** What stands between two cells of the document: a blank line, the
    separator line, a blank line. *)
Definition cell_break : string := nl ++ nl ++ separator ++ nl ++ nl.

(** The four parts the loop appends for one rendered statement. *)
Definition cell_parts (stmt : string) : list string :=
  [stmt; ""; separator; ""].

(** ** Runs of the driver *)

(** Two worlds with the same files: same reading of rules.yml, same output
    file, same ability to open it. *)
Definition same_files (w w' : world) : Prop :=
  rules_yml w' = rules_yml w /\
  out_file w' = out_file w /\
  out_open w' = out_open w /\
  out_write w' = out_write w.

(** A program that leaves the files as they are. *)
Definition keeps_files {A : Type} (m : prog A) : Prop :=
  forall w, same_files w (snd (m w)).

(** Loading the configuration fails. *)
Definition load_fails (w : world) : Prop :=
  exists e, rules_yml w = LoadFails e.

(** The configuration loads and the rendering of one of its alerts raises. *)
Definition render_fails (w : world) : Prop :=
  exists rules g entries name a e,
    rules_yml w = Parsed rules /\
    supplied rules "global" = Some g /\
    supplied rules "alerts" = Some (VDict entries) /\
    In (name, a) entries /\
    generate_alert_sql a g = Raise e.

(** The message of the first [except] clause. *)
Definition missing_file_message : line :=
  Print "❌ Error: rules.yml not found. Please ensure the file exists in the current directory.".

(** ** Sample configurations *)

(** The global settings of the scenario in the specification. *)
Definition example_global : value :=
  VDict [ ("catalog", VStr "sec"); ("schema", VStr "detect");
          ("warehouse_id", VInt 123); ("user_email", VStr "a@b.com");
          ("notify_on_ok", VBool true); ("retrigger_seconds", VInt 600);
          ("timezone_id", VStr "UTC"); ("pause_status", VStr "UNPAUSED") ].

(** The alert of the scenario in the specification. *)
Definition example_alert : value :=
  VDict [ ("description", VStr "d"); ("display_name", VStr "n");
          ("query_template", VStr "SELECT * FROM {catalog}.{schema}.t");
          ("comparison_operator", VStr ">"); ("threshold_value", VInt 5) ].

(** An alert whose query holds a quoted literal and doubled braces. *)
Definition braces_alert : value :=
  VDict [ ("description", VStr "d"); ("display_name", VStr "n");
          ("query_template",
           VStr "SELECT '{{}}' FROM {catalog}.{schema}.t");
          ("comparison_operator", VStr ">"); ("threshold_value", VInt 5) ].

(** Global settings whose catalog name holds a single quote. *)
Definition quote_global : value :=
  VDict [ ("catalog", VStr "o'brien"); ("schema", VStr "detect");
          ("warehouse_id", VInt 123); ("user_email", VStr "a@b.com");
          ("notify_on_ok", VBool true); ("retrigger_seconds", VInt 600);
          ("timezone_id", VStr "UTC"); ("pause_status", VStr "UNPAUSED") ].

(** A document with two alerts. *)
Definition example_rules : value :=
  VDict [ ("global", example_global);
          ("alerts", VDict [ ("first", example_alert);
                             ("second", braces_alert) ]) ].

(** A document with no alert. *)
Definition empty_rules : value :=
  VDict [ ("global", example_global); ("alerts", VDict []) ].

(** A document whose second alert lacks its query. *)
Definition broken_rules : value :=
  VDict [ ("global", example_global);
          ("alerts", VDict [ ("first", example_alert);
                             ("second", VDict [("description", VStr "d")]) ]) ].

(** A machine without rules.yml and with an output file of a former run. *)
Definition missing_world : world :=
  mkWorld (LoadFails FileNotFoundError) (Some "former output") None None [].

(** A machine whose rules.yml holds [broken_rules]. *)
Definition broken_world : world :=
  mkWorld (Parsed broken_rules) (Some "former output") None None [].

(** A machine whose rules.yml holds [example_rules] and on which the write
    fails after ten characters (the disk is full). *)
Definition failing_write_world : world :=
  mkWorld (Parsed example_rules) (Some "former output") None
    (Some (10, OtherException)) [].

(** A rule that gives its own schedule and empty-result state. *)
Definition scheduled_alert : value :=
  VDict [ ("description", VStr "d"); ("display_name", VStr "n");
          ("query_template", VStr "SELECT * FROM {catalog}.{schema}.t");
          ("comparison_operator", VStr ">"); ("threshold_value", VInt 5);
          ("empty_result_state", VStr "OK");
          ("cron_schedule", VStr "0 0 8 * * ?") ].

(** Global settings that give a schedule. *)
Definition scheduled_global : value :=
  VDict [ ("catalog", VStr "sec"); ("schema", VStr "detect");
          ("warehouse_id", VInt 123); ("user_email", VStr "a@b.com");
          ("notify_on_ok", VBool true); ("retrigger_seconds", VInt 600);
          ("cron_schedule", VStr "0 0 6 * * ?");
          ("timezone_id", VStr "UTC"); ("pause_status", VStr "UNPAUSED") ].

(** A machine whose rules.yml holds [example_rules], with no output yet. *)
Definition example_world : world :=
  mkWorld (Parsed example_rules) None None None [].

(** ** Vocabulary of the further properties *)

(** The keys a rule is read at without a default. *)
Definition required_rule_keys : list string :=
  [ "query_template"; "description"; "display_name"; "comparison_operator";
    "threshold_value" ].

(** The keys the global settings are read at without a default. *)
Definition required_global_keys : list string :=
  [ "catalog"; "schema"; "warehouse_id"; "user_email"; "notify_on_ok";
    "retrigger_seconds"; "timezone_id"; "pause_status" ].

(** The exception classes that reading a mapping, formatting and attribute
    lookup can raise. *)
Definition renderer_exn (e : exn) : Prop :=
  e = KeyError \/ e = TypeError \/ e = AttributeError \/
  e = ValueError \/ e = IndexError.

(** A computation that raises only exceptions of a given kind. *)
Definition raises_only {A : Type} (P : exn -> Prop) (m : outcome A) : Prop :=
  forall e, m = Raise e -> P e.

(** Reading the body of a single-quoted SQL literal back: two consecutive
    quotes stand for one. *)
Fixpoint sql_unescape (s : string) : string :=
  match s with
  | EmptyString => EmptyString
  | String c s' =>
      if Ascii.eqb c quote then
        match s' with
        | String c' s'' =>
            if Ascii.eqb c' quote then String quote (sql_unescape s'')
            else String c (sql_unescape s')
        | EmptyString => String c EmptyString
        end
      else String c (sql_unescape s')
  end.

(** Whether a text, read as the body of a single-quoted SQL literal, ends
    the literal: it does at a quote that no second quote follows. *)
Fixpoint closes_literal (s : string) : bool :=
  match s with
  | EmptyString => false
  | String c s' =>
      if Ascii.eqb c quote then
        match s' with
        | String c' s'' => if Ascii.eqb c' quote then closes_literal s'' else true
        | EmptyString => true
        end
      else closes_literal s'
  end.

(** A text without braces. *)
Definition is_brace (c : ascii) : bool := Ascii.eqb c "{" || Ascii.eqb c "}".


(** A plain field name: ASCII, without braces and without the characters
    that start a conversion, a format specification, an index or an
    attribute, and not a number. *)
Definition plain_char (c : ascii) : bool :=
  is_ascii c && negb (is_brace c) && negb (is_field_special c).

Definition plain_name (name : string) : bool :=
  string_forallb plain_char name && negb (string_forallb is_digit name).

(** The printed text of what a mapping holds under a key. *)
Definition item_text (obj : value) (key : string) : string :=
  match supplied obj key with
  | Some v => text_of v
  | None => ""
  end.

(** The two console lines of the summary for one alert. *)
Definition summary_lines_of (config : value) : list line :=
  [ Print ("  • " ++ item_text config "display_name" ++ ": "
           ++ item_text config "description");
    Print ("    Threshold: " ++ item_text config "comparison_operator" ++ " "
           ++ item_text config "threshold_value") ].

(** What a successful run prints. *)
Definition success_lines (entries : list (string * value)) : list line :=
  [ Print "✅ Generated alerts SQL: src/generated_alerts.sql";
    Print ("📊 Total alerts generated: "
           ++ NilZero.string_of_uint (Nat.to_uint (List.length entries)));
    Print (nl ++ "📋 Alert Summary:") ]
  ++ flat_map (fun entry => summary_lines_of (snd entry)) entries.

(** The world after printing some lines. *)
Definition printed (w : world) (ls : list line) : world :=
  mkWorld (rules_yml w) (out_file w) (out_open w) (out_write w)
    (console w ++ ls).

(** An alert whose optional fields are given as null. *)
Definition null_alert : value :=
  VDict [ ("description", VStr "d"); ("display_name", VStr "n");
          ("query_template", VStr "SELECT 1");
          ("comparison_operator", VStr ">"); ("threshold_value", VInt 5);
          ("empty_result_state", VNone); ("cron_schedule", VNone) ].

(** A machine on which the output file cannot be opened because its
    directory is missing. *)
Definition unwritable_world : world :=
  mkWorld (Parsed example_rules) (Some "former output")
    (Some FileNotFoundError) None [].

(** A machine whose rules.yml does not parse. *)
Definition unparsable_world : world :=
  mkWorld (LoadFails YAMLError) (Some "former output") None None [].

(** * Basic facts *)

Lemma bind_Ok {A B : Type} (m : outcome A) (k : A -> outcome B) (b : B) :
  bind m k = Ok b -> exists a, m = Ok a /\ k a = Ok b.
Proof.
  destruct m as [a | e | ]; simpl; intros H; try discriminate.
  exists a; split; [reflexivity | exact H].
Qed.

Lemma fstring_Lit (s : string) (ps : list piece) (r : string) :
  fstring (Lit s :: ps) = Ok r ->
  exists r', fstring ps = Ok r' /\ r = s ++ r'.
Proof.
  simpl. intros H. apply bind_Ok in H. destruct H as (r' & Hps & Hr).
  exists r'. split; [exact Hps | congruence].
Qed.

Lemma fstring_Sub (e : outcome string) (ps : list piece) (r : string) :
  fstring (Sub e :: ps) = Ok r ->
  exists v r', e = Ok v /\ fstring ps = Ok r' /\ r = v ++ r'.
Proof.
  simpl. intros H. apply bind_Ok in H. destruct H as (v & He & H).
  apply bind_Ok in H. destruct H as (r' & Hps & Hr).
  exists v, r'. repeat split; [exact He | exact Hps | congruence].
Qed.

Lemma fstring_nil (r : string) : fstring [] = Ok r -> r = "".
Proof. simpl. congruence. Qed.

Lemma append_assoc (a b c : string) : (a ++ b) ++ c = a ++ (b ++ c).
Proof.
  induction a as [| x a IH]; simpl; [reflexivity | now rewrite IH].
Qed.

Lemma append_nil_r (a : string) : a ++ "" = a.
Proof.
  induction a as [| x a IH]; simpl; [reflexivity | now rewrite IH].
Qed.

Lemma getitem_supplied (obj : value) (key : string) (v : value) :
  getitem obj key = Ok v -> supplied obj key = Some v.
Proof.
  destruct obj; simpl; try discriminate.
  destruct (lookup key d); congruence.
Qed.

Lemma supplied_getitem (obj : value) (key : string) (v : value) :
  supplied obj key = Some v -> getitem obj key = Ok v.
Proof.
  destruct obj; simpl; try discriminate. now intros ->.
Qed.

Lemma getitem_dict (obj : value) (key : string) (v : value) :
  getitem obj key = Ok v -> exists d, obj = VDict d.
Proof.
  destruct obj; simpl; try discriminate. intros _. now exists d.
Qed.

Ltac bind_inv H :=
  let x := fresh "x" in
  let Hx := fresh "Hx" in
  apply bind_Ok in H; destruct H as (x & Hx & H).

Ltac fstring_inv H :=
  repeat first
    [ let r := fresh "r" in
      let Hr := fresh "Hr" in
      apply fstring_Lit in H; destruct H as (r & H & Hr)
    | let v := fresh "v" in
      let r := fresh "r" in
      let Hv := fresh "Hv" in
      let Hr := fresh "Hr" in
      apply fstring_Sub in H; destruct H as (v & r & Hv & H & Hr) ].

(** * The shape of a rendered statement *)

(** A successful rendering reads every field and lays the texts out as the
    [create_alert] call. *)
Lemma generate_alert_sql_reads (a g : value) (sql : string) :
  generate_alert_sql a g = Ok sql ->
  exists f,
    reads a g f /\
    sql = statement (f_description f)
            (combine create_alert_args (argument_texts f)).
Proof.
  unfold generate_alert_sql. intros H.
  bind_inv H. bind_inv H. bind_inv H. bind_inv H. bind_inv H.
  destruct (getitem_dict _ _ _ Hx) as (da & ->).
  destruct (getitem_dict _ _ _ Hx1) as (dg & ->).
  destruct x as [ | | | template | | ]; try discriminate.
  injection Hx0 as <-.
  fstring_inv H. apply fstring_nil in H.
  injection Hv1 as <-.
  subst.
  exists (mkFields v v0 x3 v2 v3 v4 v5 v6 v7 v8 v9 v10 v11).
  split.
  - constructor; cbn [f_description f_display_name f_query_text
        f_warehouse_id f_comparison_operator f_threshold_value
        f_empty_result_state f_user_email f_notify_on_ok f_retrigger_seconds
        f_cron_schedule f_timezone_id f_pause_status]; try assumption.
    + exists template, x1, x2.
      repeat split; auto using getitem_supplied.
    + bind_inv Hv7. bind_inv Hv7. exists x0. split; [| exact Hv7].
      unfold show_item. rewrite Hx0. exact Hx4.
  - unfold statement, argument_texts, quoted, named_arg.
    simpl. rewrite !append_assoc. simpl.
    repeat (f_equal; rewrite ?append_assoc; simpl).
Qed.

(** Conversely, when every field can be read the rendering succeeds, with
    that statement. *)
Lemma reads_generate_alert_sql (a g : value) (f : fields) :
  reads a g f ->
  generate_alert_sql a g
  = Ok (statement (f_description f)
          (combine create_alert_args (argument_texts f))).
Proof.
  intros [(template & catalog & schema & Ht & Hc & Hs & Hscan)
            Hd Hn Hw Ho Hv He Hu (shown & Hshown & Hlower) Hr Hcr Hz Hp].
  destruct a as [ | | | | da | ]; try discriminate.
  destruct g as [ | | | | dg | ]; try discriminate.
  unfold show_item in Hshown.
  destruct (getitem (VDict dg) "notify_on_ok") as [nv | | ] eqn:Hnv;
    try discriminate.
  cbn [bind] in Hshown.
  unfold generate_alert_sql.
  rewrite (supplied_getitem _ _ _ Ht). cbn [bind format_method].
  rewrite (supplied_getitem _ _ _ Hc), (supplied_getitem _ _ _ Hs).
  cbn [bind]. rewrite Hscan. cbn [bind fstring].
  rewrite Hd, Hn, Hw, Ho, Hv, Hu, Hr, Hz, Hp, Hnv.
  cbn [bind get_method].
  unfold resolved_empty_result_state, resolved_cron, supplied in He, Hcr.
  rewrite He, Hshown, Hcr. cbn [bind]. rewrite Hlower. cbn [bind].
  f_equal.
  unfold statement, argument_texts, quoted, named_arg.
  simpl. rewrite !append_assoc. simpl.
  repeat (f_equal; rewrite ?append_assoc; simpl).
Qed.

(** The scenario of the specification, rendered. *)
Example scenario_statement :
  generate_alert_sql example_alert example_global
  = Ok ("-- d" ++ nl ++
        "SELECT create_alert(" ++ nl ++
        "  display_name => 'n'," ++ nl ++
        "  query_text => 'SELECT * FROM sec.detect.t'," ++ nl ++
        "  warehouse_id => 123," ++ nl ++
        "  comparison_operator => '>'," ++ nl ++
        "  threshold_value => 5," ++ nl ++
        "  empty_result_state => 'UNKNOWN'," ++ nl ++
        "  user_email => a@b.com," ++ nl ++
        "  notify_on_ok => true," ++ nl ++
        "  retrigger_seconds => 600," ++ nl ++
        "  cron_schedule => '0 0 10 1/7 * ?'," ++ nl ++
        "  timezone_id => 'UTC'," ++ nl ++
        "  pause_status => 'UNPAUSED'" ++ nl ++
        ") as alert;").
Proof. reflexivity. Qed.

(** A rule without its query raises, as does a template naming an unknown
    field or holding a lone brace. *)
Example missing_query_raises :
  generate_alert_sql (VDict [("description", VStr "d")]) example_global
  = Raise KeyError.
Proof. reflexivity. Qed.

Example unknown_field_raises :
  scan [("catalog", VStr "sec"); ("schema", VStr "detect")] Text
    "SELECT {table} FROM {catalog}"
  = Raise KeyError.
Proof. reflexivity. Qed.

Example lone_brace_raises :
  scan [("catalog", VStr "sec"); ("schema", VStr "detect")] Text
    "SELECT '}' FROM {catalog}"
  = Raise ValueError.
Proof. reflexivity. Qed.

Example quantifier_raises :
  scan [("catalog", VStr "sec"); ("schema", VStr "detect")] Text
    "x RLIKE '[0-9]{3}'"
  = Raise IndexError.
Proof. reflexivity. Qed.

(** * The scanner against the substitution of the specification *)


Section Substitution.

Variables catalog schema : value.

Let kwargs : list (string * value) := [("catalog", catalog); ("schema", schema)].








End Substitution.


(** * Occurrences and quotes *)

Lemma occurs_refl (s : string) : occurs s s.
Proof. exists "", "". simpl. now rewrite append_nil_r. Qed.

Lemma occurs_app_left (s t u : string) : occurs s t -> occurs s (u ++ t).
Proof.
  intros (pre & post & ->). exists (u ++ pre), post.
  now rewrite append_assoc.
Qed.

Lemma occurs_app_right (s t u : string) : occurs s t -> occurs s (t ++ u).
Proof.
  intros (pre & post & ->). exists pre, (post ++ u).
  now rewrite !append_assoc.
Qed.

Lemma prefix_append (s post : string) : prefix s (s ++ post) = true.
Proof.
  induction s as [| c s IH]; simpl; [destruct post; reflexivity |].
  destruct (ascii_dec c c); [exact IH | congruence].
Qed.

Lemma occursb_prefix (s t : string) :
  prefix s t = true -> occursb s t = true.
Proof.
  intros H. destruct t; cbn [occursb]; rewrite H; reflexivity.
Qed.

Lemma occurs_occursb (s t : string) : occurs s t -> occursb s t = true.
Proof.
  intros (pre & post & ->).
  induction pre as [| c pre IH].
  - change ("" ++ s ++ post) with (s ++ post).
    apply occursb_prefix, prefix_append.
  - simpl. rewrite IH. apply orb_true_r.
Qed.

Lemma py_join_cons (sep p q : string) (ps : list string) :
  py_join sep (p :: q :: ps) = p ++ sep ++ py_join sep (q :: ps).
Proof. reflexivity. Qed.

Lemma py_join_occurs (sep x : string) (l : list string) :
  In x l -> occurs x (py_join sep l).
Proof.
  induction l as [| p l IH]; [contradiction |].
  intros [-> | Hin].
  - destruct l as [| q l]; [apply occurs_refl |].
    rewrite py_join_cons. apply occurs_app_right, occurs_refl.
  - destruct l as [| q l]; [contradiction |].
    rewrite py_join_cons. now apply occurs_app_left, occurs_app_left, IH.
Qed.

(** Every argument line of a statement occurs in it. *)
Lemma statement_occurs (description : string) (args : list (string * string))
    (arg : string * string) :
  In arg args -> occurs (named_arg arg) (statement description args).
Proof.
  intros Hin. unfold statement.
  do 5 apply occurs_app_left. apply occurs_app_right.
  apply py_join_occurs. now apply in_map.
Qed.

Lemma count_quotes_app (s t : string) :
  count_quotes (s ++ t) = count_quotes s + count_quotes t.
Proof.
  induction s as [| c s IH]; simpl; [reflexivity | rewrite IH; lia].
Qed.

Lemma replace_double_quotes (s : string) :
  replace_char quote "''" s = double_quotes s.
Proof.
  induction s as [| c s IH]; simpl; [reflexivity |].
  destruct (Ascii.eqb c quote); simpl; now rewrite IH.
Qed.

Lemma count_quotes_double (s : string) :
  count_quotes (double_quotes s) = 2 * count_quotes s.
Proof.
  induction s as [| c s IH]; simpl; [reflexivity |].
  destruct (Ascii.eqb c quote) eqn:E; simpl; rewrite ?E, IH; simpl; lia.
Qed.

Lemma lower_char_quote (c : ascii) :
  Ascii.eqb (lower_char c) quote = Ascii.eqb c quote.
Proof.
  destruct c as [[] [] [] [] [] [] [] []]; reflexivity.
Qed.

Lemma count_quotes_lower (s t : string) :
  py_lower s = Ok t -> count_quotes t = count_quotes s.
Proof.
  unfold py_lower. destruct (string_forallb is_ascii s); [| discriminate].
  intros H. injection H as <-.
  induction s as [| c s IH]; simpl; [reflexivity |].
  now rewrite lower_char_quote, IH.
Qed.

Lemma quoted_length (s : string) :
  String.length (quoted s) = S (S (String.length s)).
Proof.
  unfold quoted. simpl. f_equal.
  induction s as [| c s IH]; simpl; [reflexivity | now rewrite IH].
Qed.

Lemma quoted_neq (s : string) : quoted s <> s.
Proof.
  intros H. apply (f_equal String.length) in H.
  rewrite quoted_length in H. lia.
Qed.

(** * The alert renderer: claims *)

(** C1. For every alert rule and global settings, the rendering succeeds
    exactly when every field can be read, and the statement is then the
    description comment followed by the [create_alert] call with exactly
    twelve named arguments, each bound to its own field, in this order:
    display_name, query_text, warehouse_id, comparison_operator,
    threshold_value, empty_result_state, user_email, notify_on_ok,
    retrigger_seconds, cron_schedule, timezone_id, pause_status. *)
Theorem C1_arguments_in_fixed_order (a g : value) (sql : string) :
  generate_alert_sql a g = Ok sql <->
  exists f,
    reads a g f /\
    sql = statement (f_description f)
            [ ("display_name", quoted (f_display_name f));
              ("query_text", quoted (double_quotes (f_query_text f)));
              ("warehouse_id", f_warehouse_id f);
              ("comparison_operator", quoted (f_comparison_operator f));
              ("threshold_value", f_threshold_value f);
              ("empty_result_state", quoted (f_empty_result_state f));
              ("user_email", f_user_email f);
              ("notify_on_ok", f_notify_on_ok f);
              ("retrigger_seconds", f_retrigger_seconds f);
              ("cron_schedule", quoted (f_cron_schedule f));
              ("timezone_id", quoted (f_timezone_id f));
              ("pause_status", quoted (f_pause_status f)) ] /\
    map fst
      [ ("display_name", quoted (f_display_name f));
        ("query_text", quoted (double_quotes (f_query_text f)));
        ("warehouse_id", f_warehouse_id f);
        ("comparison_operator", quoted (f_comparison_operator f));
        ("threshold_value", f_threshold_value f);
        ("empty_result_state", quoted (f_empty_result_state f));
        ("user_email", f_user_email f);
        ("notify_on_ok", f_notify_on_ok f);
        ("retrigger_seconds", f_retrigger_seconds f);
        ("cron_schedule", quoted (f_cron_schedule f));
        ("timezone_id", quoted (f_timezone_id f));
        ("pause_status", quoted (f_pause_status f)) ]
    = create_alert_args.
Proof.
  split.
  - intros H. apply generate_alert_sql_reads in H.
    destruct H as (f & Hf & ->). exists f.
    split; [exact Hf |]. split; [| reflexivity].
    unfold argument_texts. rewrite replace_double_quotes. reflexivity.
  - intros (f & Hf & -> & _).
    rewrite (reads_generate_alert_sql a g f Hf).
    unfold argument_texts. rewrite replace_double_quotes. reflexivity.
Qed.

Lemma C1_witness :
  exists sql,
    generate_alert_sql example_alert example_global = Ok sql /\
    exists f,
      reads example_alert example_global f /\
      sql = statement (f_description f)
              [ ("display_name", quoted (f_display_name f));
                ("query_text", quoted (double_quotes (f_query_text f)));
                ("warehouse_id", f_warehouse_id f);
                ("comparison_operator", quoted (f_comparison_operator f));
                ("threshold_value", f_threshold_value f);
                ("empty_result_state", quoted (f_empty_result_state f));
                ("user_email", f_user_email f);
                ("notify_on_ok", f_notify_on_ok f);
                ("retrigger_seconds", f_retrigger_seconds f);
                ("cron_schedule", quoted (f_cron_schedule f));
                ("timezone_id", quoted (f_timezone_id f));
                ("pause_status", quoted (f_pause_status f)) ] /\
      map fst
        [ ("display_name", quoted (f_display_name f));
          ("query_text", quoted (double_quotes (f_query_text f)));
          ("warehouse_id", f_warehouse_id f);
          ("comparison_operator", quoted (f_comparison_operator f));
          ("threshold_value", f_threshold_value f);
          ("empty_result_state", quoted (f_empty_result_state f));
          ("user_email", f_user_email f);
          ("notify_on_ok", f_notify_on_ok f);
          ("retrigger_seconds", f_retrigger_seconds f);
          ("cron_schedule", quoted (f_cron_schedule f));
          ("timezone_id", quoted (f_timezone_id f));
          ("pause_status", quoted (f_pause_status f)) ]
      = create_alert_args.
Proof.
  eexists. split; [reflexivity |].
  apply (proj1 (C1_arguments_in_fixed_order example_alert example_global _)).
  reflexivity.
Defined.

(** C3. For every alert rule, the rendering succeeds exactly when every
    field can be read, the schedule among them being the rule's
    cron_schedule if the rule supplies one, else the global one if the
    global settings supply one, else the default; the tenth argument,
    cron_schedule, is then the single-quoted text of that schedule, and
    with none supplied the statement contains the default expression. *)
Theorem C3_cron_schedule_resolution (a g : value) (sql : string) :
  generate_alert_sql a g = Ok sql <->
  exists f,
    reads a g f /\
    sql = statement (f_description f)
            (combine create_alert_args (argument_texts f)) /\
    py_str (resolved_cron a g) = Ok (f_cron_schedule f) /\
    nth_error (argument_texts f) 9 = Some (quoted (f_cron_schedule f)) /\
    occurs ("  cron_schedule => '" ++ f_cron_schedule f ++ "'") sql /\
    (supplied a "cron_schedule" = None ->
     supplied g "cron_schedule" = None ->
     f_cron_schedule f = "0 0 10 1/7 * ?" /\
     occurs "  cron_schedule => '0 0 10 1/7 * ?'" sql).
Proof.
  split.
  - intros H. apply generate_alert_sql_reads in H.
    destruct H as (f & Hf & ->).
    assert (Hocc : occurs
                     ("  cron_schedule => '" ++ f_cron_schedule f ++ "'")
                     (statement (f_description f)
                        (combine create_alert_args (argument_texts f)))).
    { apply (statement_occurs _ _
               ("cron_schedule", quoted (f_cron_schedule f))).
      simpl. tauto. }
    exists f.
    split; [exact Hf |].
    split; [reflexivity |].
    split; [apply (rd_cron_schedule _ _ _ Hf) |].
    split; [reflexivity |].
    split; [exact Hocc |].
    intros Ha Hg.
    pose proof (rd_cron_schedule _ _ _ Hf) as Hc.
    unfold resolved_cron in Hc. rewrite Ha, Hg in Hc. simpl in Hc.
    injection Hc as Hc. split; [now symmetry |].
    rewrite <- Hc in Hocc. exact Hocc.
  - intros (f & Hf & -> & _). now apply reads_generate_alert_sql.
Qed.

Lemma C3_witness :
  (exists sql,
      generate_alert_sql scheduled_alert scheduled_global = Ok sql /\
      occurs "  cron_schedule => '0 0 8 * * ?'" sql) /\
  (exists sql,
      generate_alert_sql example_alert scheduled_global = Ok sql /\
      occurs "  cron_schedule => '0 0 6 * * ?'" sql) /\
  (exists sql,
      generate_alert_sql example_alert example_global = Ok sql /\
      occurs "  cron_schedule => '0 0 10 1/7 * ?'" sql).
Proof.
  split; [| split]; (eexists; split; [reflexivity |]).
  - destruct (proj1 (C3_cron_schedule_resolution
                       scheduled_alert scheduled_global _) eq_refl)
      as (f & _ & _ & Hc & _ & Hocc & _).
    change (Ok "0 0 8 * * ?" = Ok (f_cron_schedule f)) in Hc.
    injection Hc as Hc. rewrite <- Hc in Hocc. exact Hocc.
  - destruct (proj1 (C3_cron_schedule_resolution
                       example_alert scheduled_global _) eq_refl)
      as (f & _ & _ & Hc & _ & Hocc & _).
    change (Ok "0 0 6 * * ?" = Ok (f_cron_schedule f)) in Hc.
    injection Hc as Hc. rewrite <- Hc in Hocc. exact Hocc.
  - destruct (proj1 (C3_cron_schedule_resolution
                       example_alert example_global _) eq_refl)
      as (f & _ & _ & _ & _ & _ & Hdefault).
    apply Hdefault; reflexivity.
Defined.

(** C4. For every alert rule, the rendering succeeds exactly when every
    field can be read, the empty-result state among them being the rule's
    empty_result_state if the rule supplies one, else [UNKNOWN]; the sixth
    argument, empty_result_state, is then the single-quoted text of that
    state, and with none supplied the statement contains
    [empty_result_state => 'UNKNOWN']. *)
Theorem C4_empty_result_state_resolution (a g : value) (sql : string) :
  generate_alert_sql a g = Ok sql <->
  exists f,
    reads a g f /\
    sql = statement (f_description f)
            (combine create_alert_args (argument_texts f)) /\
    py_str (resolved_empty_result_state a) = Ok (f_empty_result_state f) /\
    nth_error (argument_texts f) 5 = Some (quoted (f_empty_result_state f)) /\
    occurs ("  empty_result_state => '" ++ f_empty_result_state f ++ "'")
      sql /\
    (supplied a "empty_result_state" = None ->
     f_empty_result_state f = "UNKNOWN" /\
     occurs "empty_result_state => 'UNKNOWN'" sql).
Proof.
  split.
  - intros H. apply generate_alert_sql_reads in H.
    destruct H as (f & Hf & ->).
    assert (Hocc : occurs
                     ("  empty_result_state => '"
                      ++ f_empty_result_state f ++ "'")
                     (statement (f_description f)
                        (combine create_alert_args (argument_texts f)))).
    { apply (statement_occurs _ _
               ("empty_result_state", quoted (f_empty_result_state f))).
      simpl. tauto. }
    exists f.
    split; [exact Hf |].
    split; [reflexivity |].
    split; [apply (rd_empty_result_state _ _ _ Hf) |].
    split; [reflexivity |].
    split; [exact Hocc |].
    intros Ha.
    pose proof (rd_empty_result_state _ _ _ Hf) as Hc.
    unfold resolved_empty_result_state in Hc. rewrite Ha in Hc. simpl in Hc.
    injection Hc as Hc. split; [now symmetry |].
    rewrite <- Hc in Hocc.
    destruct Hocc as (pre & post & Hocc).
    exists (pre ++ "  "), post. rewrite Hocc.
    rewrite !append_assoc. reflexivity.
  - intros (f & Hf & -> & _). now apply reads_generate_alert_sql.
Qed.

Lemma C4_witness :
  (exists sql,
      generate_alert_sql scheduled_alert example_global = Ok sql /\
      occurs "  empty_result_state => 'OK'" sql) /\
  (exists sql,
      generate_alert_sql example_alert example_global = Ok sql /\
      occurs "empty_result_state => 'UNKNOWN'" sql).
Proof.
  split; (eexists; split; [reflexivity |]).
  - destruct (proj1 (C4_empty_result_state_resolution
                       scheduled_alert example_global _) eq_refl)
      as (f & _ & _ & Hc & _ & Hocc & _).
    change (Ok "OK" = Ok (f_empty_result_state f)) in Hc.
    injection Hc as Hc. rewrite <- Hc in Hocc. exact Hocc.
  - destruct (proj1 (C4_empty_result_state_resolution
                       example_alert example_global _) eq_refl)
      as (f & _ & _ & _ & _ & _ & Hdefault).
    apply Hdefault; reflexivity.
Defined.

(** C9. Whenever an alert renders, the seventh argument is the text of
    user_email as it is, with no quotes added around it, whereas
    display_name, query_text, comparison_operator, empty_result_state,
    cron_schedule, timezone_id and pause_status stand between single
    quotes. *)
Theorem C9_user_email_unquoted (a g : value) (sql : string) :
  generate_alert_sql a g = Ok sql ->
  exists f,
    reads a g f /\
    show_item g "user_email" = Ok (f_user_email f) /\
    sql = statement (f_description f)
            (combine create_alert_args
               [ quoted (f_display_name f);
                 quoted (double_quotes (f_query_text f));
                 f_warehouse_id f;
                 quoted (f_comparison_operator f);
                 f_threshold_value f;
                 quoted (f_empty_result_state f);
                 f_user_email f;
                 f_notify_on_ok f;
                 f_retrigger_seconds f;
                 quoted (f_cron_schedule f);
                 quoted (f_timezone_id f);
                 quoted (f_pause_status f) ]) /\
    f_user_email f <> quoted (f_user_email f) /\
    occurs ("  user_email => " ++ f_user_email f) sql /\
    occurs ("  display_name => '" ++ f_display_name f ++ "'") sql /\
    occurs ("  timezone_id => '" ++ f_timezone_id f ++ "'") sql /\
    occurs ("  pause_status => '" ++ f_pause_status f ++ "'") sql.
Proof.
  intros H. apply generate_alert_sql_reads in H.
  destruct H as (f & Hf & ->).
  exists f.
  split; [exact Hf |].
  split; [apply (rd_user_email _ _ _ Hf) |].
  split.
  { unfold argument_texts. now rewrite replace_double_quotes. }
  split.
  { intros E. now apply (quoted_neq (f_user_email f)). }
  repeat split.
  - apply (statement_occurs _ _ ("user_email", f_user_email f)).
    simpl. tauto.
  - apply (statement_occurs _ _ ("display_name", quoted (f_display_name f))).
    simpl. tauto.
  - apply (statement_occurs _ _ ("timezone_id", quoted (f_timezone_id f))).
    simpl. tauto.
  - apply (statement_occurs _ _ ("pause_status", quoted (f_pause_status f))).
    simpl. tauto.
Qed.

Lemma C9_witness :
  exists sql,
    generate_alert_sql example_alert example_global = Ok sql /\
    exists f,
      reads example_alert example_global f /\
      show_item example_global "user_email" = Ok (f_user_email f) /\
      sql = statement (f_description f)
              (combine create_alert_args
                 [ quoted (f_display_name f);
                   quoted (double_quotes (f_query_text f));
                   f_warehouse_id f;
                   quoted (f_comparison_operator f);
                   f_threshold_value f;
                   quoted (f_empty_result_state f);
                   f_user_email f;
                   f_notify_on_ok f;
                   f_retrigger_seconds f;
                   quoted (f_cron_schedule f);
                   quoted (f_timezone_id f);
                   quoted (f_pause_status f) ]) /\
      f_user_email f <> quoted (f_user_email f) /\
      occurs ("  user_email => " ++ f_user_email f) sql /\
      occurs ("  display_name => '" ++ f_display_name f ++ "'") sql /\
      occurs ("  timezone_id => '" ++ f_timezone_id f ++ "'") sql /\
      occurs ("  pause_status => '" ++ f_pause_status f ++ "'") sql.
Proof.
  eexists. split; [reflexivity |].
  apply (C9_user_email_unquoted example_alert example_global).
  reflexivity.
Defined.

(** The quotes of a statement: fourteen delimiters, the quotes of the query
    text twice, the quotes of every other text once. *)
Lemma statement_count_quotes (f : fields) :
  count_quotes
    (statement (f_description f)
       (combine create_alert_args (argument_texts f)))
  = 14 + 2 * count_quotes (f_query_text f)
    + count_quotes (f_description f)
    + count_quotes (f_display_name f)
    + count_quotes (f_warehouse_id f)
    + count_quotes (f_comparison_operator f)
    + count_quotes (f_threshold_value f)
    + count_quotes (f_empty_result_state f)
    + count_quotes (f_user_email f)
    + count_quotes (f_notify_on_ok f)
    + count_quotes (f_retrigger_seconds f)
    + count_quotes (f_cron_schedule f)
    + count_quotes (f_timezone_id f)
    + count_quotes (f_pause_status f).
Proof.
  unfold statement, argument_texts, quoted, named_arg.
  rewrite replace_double_quotes.
  cbn [combine create_alert_args map py_join fst snd].
  rewrite !count_quotes_app, count_quotes_double.
  change (count_quotes nl) with 0.
  cbn [count_quotes Ascii.eqb Bool.eqb quote]. lia.
Qed.

Lemma prefix_split (s t : string) :
  prefix s t = true -> exists post, t = s ++ post.
Proof.
  revert t. induction s as [| c s IH]; intros t H.
  - now exists t.
  - destruct t as [| d t]; [discriminate |]. simpl in H.
    destruct (ascii_dec c d) as [<- | _]; [| discriminate].
    destruct (IH t H) as (post & ->). now exists post.
Qed.

Lemma occursb_occurs (s t : string) : occursb s t = true -> occurs s t.
Proof.
  induction t as [| c t IH]; cbn [occursb]; intros H.
  - rewrite orb_false_r in H. apply prefix_split in H.
    destruct H as (post & ->). exists "", post. reflexivity.
  - apply orb_true_iff in H. destruct H as [H | H].
    + apply prefix_split in H. destruct H as (post & ->).
      exists "", post. reflexivity.
    + destruct (IH H) as (pre & post & ->).
      exists (String c pre), post. reflexivity.
Qed.





(** C6, as stated, fails: a single quote in the global catalog is not
    embedded as it is; it reaches the statement inside query_text and is
    doubled there. *)
Lemma C6_counterexample :
  exists sql,
    generate_alert_sql example_alert quote_global = Ok sql /\
    show_item quote_global "catalog" = Ok "o'brien" /\
    occurs "o''brien" sql /\
    ~ occurs "o'brien" sql.
Proof.
  eexists. split; [reflexivity |].
  split; [reflexivity |].
  split.
  - apply occursb_occurs. vm_compute. reflexivity.
  - intros H. apply occurs_occursb in H. vm_compute in H. discriminate.
Qed.

(** C6, amended. Whenever an alert renders, the description, display_name,
    comparison_operator, threshold_value, empty_result_state, warehouse_id,
    user_email, retrigger_seconds, cron_schedule, timezone_id and
    pause_status stand in the statement as their printed texts, and
    notify_on_ok as its lower-cased text, with no quote added or doubled:
    the statement holds the fourteen delimiting quotes, each quote of those
    texts once, and each quote of the substituted query text (where the
    catalog and the schema end up) twice. *)
Theorem C6_no_escaping_outside_query_text (a g : value) (sql : string) :
  generate_alert_sql a g = Ok sql ->
  exists f,
    reads a g f /\
    sql = statement (f_description f)
            (combine create_alert_args (argument_texts f)) /\
    (forall shown,
        show_item g "notify_on_ok" = Ok shown ->
        count_quotes (f_notify_on_ok f) = count_quotes shown) /\
    count_quotes sql
    = 14 + 2 * count_quotes (f_query_text f)
      + count_quotes (f_description f)
      + count_quotes (f_display_name f)
      + count_quotes (f_warehouse_id f)
      + count_quotes (f_comparison_operator f)
      + count_quotes (f_threshold_value f)
      + count_quotes (f_empty_result_state f)
      + count_quotes (f_user_email f)
      + count_quotes (f_notify_on_ok f)
      + count_quotes (f_retrigger_seconds f)
      + count_quotes (f_cron_schedule f)
      + count_quotes (f_timezone_id f)
      + count_quotes (f_pause_status f).
Proof.
  intros H. apply generate_alert_sql_reads in H.
  destruct H as (f & Hf & ->).
  exists f. split; [exact Hf |]. split; [reflexivity |]. split.
  - intros shown Hshown.
    destruct (rd_notify_on_ok _ _ _ Hf) as (shown' & Hshown' & Hlower).
    rewrite Hshown in Hshown'. injection Hshown' as <-.
    now apply count_quotes_lower.
  - apply statement_count_quotes.
Qed.

Lemma C6_witness :
  exists sql,
    generate_alert_sql example_alert quote_global = Ok sql /\
    exists f,
      reads example_alert quote_global f /\
      sql = statement (f_description f)
              (combine create_alert_args (argument_texts f)) /\
      (forall shown,
          show_item quote_global "notify_on_ok" = Ok shown ->
          count_quotes (f_notify_on_ok f) = count_quotes shown) /\
      count_quotes sql
      = 14 + 2 * count_quotes (f_query_text f)
        + count_quotes (f_description f)
        + count_quotes (f_display_name f)
        + count_quotes (f_warehouse_id f)
        + count_quotes (f_comparison_operator f)
        + count_quotes (f_threshold_value f)
        + count_quotes (f_empty_result_state f)
        + count_quotes (f_user_email f)
        + count_quotes (f_notify_on_ok f)
        + count_quotes (f_retrigger_seconds f)
        + count_quotes (f_cron_schedule f)
        + count_quotes (f_timezone_id f)
        + count_quotes (f_pause_status f).
Proof.
  eexists. split; [reflexivity |].
  apply (C6_no_escaping_outside_query_text example_alert quote_global).
  reflexivity.
Defined.

(** * The batch renderer: claims *)

(** The loop renders the entries in order and appends the parts of each. *)
Lemma render_loop_parts (g : value) (entries : list (string * value)) :
  forall acc parts,
    render_loop g entries acc = Ok parts ->
    exists stmts,
      Forall2 (fun entry stmt => generate_alert_sql (snd entry) g = Ok stmt)
        entries stmts /\
      parts = (acc ++ flat_map cell_parts stmts)%list.
Proof.
  induction entries as [| [name a] entries IH]; intros acc parts H.
  - simpl in H. injection H as <-. exists []. split; [constructor |].
    simpl. now rewrite app_nil_r.
  - simpl in H. bind_inv H. apply IH in H.
    destruct H as (stmts & Hall & ->).
    exists (x :: stmts). split; [now constructor |].
    unfold list_append. simpl. now rewrite <- !app_assoc.
Qed.

(** Joining the parts line by line is joining the cells by the break. *)
Lemma py_join_cells (stmts : list string) :
  forall cell,
    cell ++ nl ++ nl ++ separator ++ nl
    ++ py_join nl ("" :: flat_map cell_parts stmts)
    = py_join cell_break (cell :: stmts) ++ nl ++ nl ++ separator ++ nl.
Proof.
  induction stmts as [| stmt stmts IH]; intros cell.
  - reflexivity.
  - change (flat_map cell_parts (stmt :: stmts))
      with (stmt :: "" :: separator :: "" :: flat_map cell_parts stmts).
    rewrite py_join_cons.
    change (py_join nl (stmt :: "" :: separator :: ""
                          :: flat_map cell_parts stmts))
      with (stmt ++ nl ++ "" ++ nl ++ separator ++ nl
            ++ py_join nl ("" :: flat_map cell_parts stmts)).
    change ("" ++ nl ++ separator ++ nl
            ++ py_join nl ("" :: flat_map cell_parts stmts))
      with (nl ++ separator ++ nl
            ++ py_join nl ("" :: flat_map cell_parts stmts)).
    change ("" ++ nl ++ stmt ++ nl ++ nl ++ separator ++ nl
            ++ py_join nl ("" :: flat_map cell_parts stmts))
      with (nl ++ stmt ++ nl ++ nl ++ separator ++ nl
            ++ py_join nl ("" :: flat_map cell_parts stmts)).
    rewrite IH, (py_join_cons cell_break cell). unfold cell_break.
    rewrite !append_assoc. reflexivity.
Qed.



(** C10. For a document with global settings and an empty alerts mapping,
    the batch renderer succeeds and returns the two header lines, a blank
    line, one separator line and the final newline, and nothing else. *)
Theorem C10_empty_alerts_header_only (rules g : value) :
  supplied rules "global" = Some g ->
  supplied rules "alerts" = Some (VDict []) ->
  generate_all_alerts_sql rules
  = Ok ("-- Databricks Security Detection Alerts" ++ nl ++
        "-- Generated from rules.yml" ++ nl ++
        nl ++
        "-- COMMAND ----------" ++ nl).
Proof.
  intros Hg Ha. unfold generate_all_alerts_sql.
  rewrite (supplied_getitem _ _ _ Hg), (supplied_getitem _ _ _ Ha).
  reflexivity.
Qed.

Lemma C10_witness :
  supplied empty_rules "global" = Some example_global /\
  supplied empty_rules "alerts" = Some (VDict []) /\
  generate_all_alerts_sql empty_rules
  = Ok ("-- Databricks Security Detection Alerts" ++ nl ++
        "-- Generated from rules.yml" ++ nl ++
        nl ++
        "-- COMMAND ----------" ++ nl).
Proof.
  split; [reflexivity |]. split; [reflexivity |].
  apply (C10_empty_alerts_header_only empty_rules example_global);
    reflexivity.
Defined.

(** * The driver: claims *)

Lemma same_files_refl (w : world) : same_files w w.
Proof. repeat split. Qed.

Lemma same_files_trans (w1 w2 w3 : world) :
  same_files w1 w2 -> same_files w2 w3 -> same_files w1 w3.
Proof.
  intros (H1 & H2 & H3 & H4) (K1 & K2 & K3 & K4). repeat split; congruence.
Qed.

Lemma keeps_pret {A : Type} (a : A) : keeps_files (pret a).
Proof. intros w. apply same_files_refl. Qed.

Lemma keeps_lift {A : Type} (o : outcome A) : keeps_files (lift o).
Proof. intros w. apply same_files_refl. Qed.

Lemma keeps_print (l : line) : keeps_files (print l).
Proof. intros w. repeat split. Qed.

Lemma keeps_pbind {A B : Type} (m : prog A) (k : A -> prog B) :
  keeps_files m -> (forall a, keeps_files (k a)) -> keeps_files (pbind m k).
Proof.
  intros Hm Hk w. unfold pbind. specialize (Hm w).
  destruct (m w) as [[a | e | ] w']; simpl in *; try exact Hm.
  eapply same_files_trans; [exact Hm | apply Hk].
Qed.

Lemma keeps_handler (e : exn) : keeps_files (handler e).
Proof. destruct e; apply keeps_print. Qed.

Ltac keeps :=
  repeat first
    [ apply keeps_print | apply keeps_lift | apply keeps_pret
    | apply keeps_handler
    | apply keeps_pbind; [| intros ? ] ].

Lemma keeps_summary_loop (entries : list (string * value)) :
  keeps_files (summary_loop entries).
Proof.
  induction entries as [| [name config] entries IH]; simpl;
    [apply keeps_pret |].
  keeps. exact IH.
Qed.

(** What a run leaves in the output file: the file is opened, and so
    changed, only when the configuration has loaded and the whole batch has
    rendered. *)
Lemma main_run (w : world) :
  exists o w',
    main w = (o, w') /\
    rules_yml w' = rules_yml w /\
    out_file w'
    = match rules_yml w with
      | Parsed rules =>
          match generate_all_alerts_sql rules, out_open w with
          | Ok doc, None => Some (written w doc)
          | _, _ => out_file w
          end
      | LoadFails _ => out_file w
      end.
Proof.
  unfold main, try_except.
  unfold pbind at 1. unfold load_rules.
  destruct (rules_yml w) as [rules | e] eqn:Hr.
  - unfold pbind at 1. unfold lift at 1.
    destruct (generate_all_alerts_sql rules) as [doc | e | ] eqn:Hg.
    + unfold pbind at 1. unfold write_output.
      destruct (out_open w) as [e | ] eqn:Ho.
      * destruct (keeps_handler e w) as (H1 & H2 & _).
        destruct (handler e w) as [o w'] eqn:E. simpl in *.
        exists o, w'. repeat split; congruence.
      * destruct (out_write w) as [[n e] | ] eqn:Hw.
        -- match goal with
           | |- context [handler e ?w1] =>
               destruct (keeps_handler e w1) as (H1 & H2 & _);
               destruct (handler e w1) as [o w'] eqn:E
           end.
           simpl in *. exists o, w'. repeat split; congruence.
        -- match goal with
           | |- context [pbind ?m ?k ?w1] =>
               assert (Hk : keeps_files (pbind m k))
                 by (keeps; apply keeps_summary_loop);
               specialize (Hk w1);
               destruct (pbind m k w1) as [[[] | e | ] w2]
           end; destruct Hk as (H1 & H2 & _); simpl in H1, H2.
           ++ eexists _, _. split; [reflexivity |]. repeat split; congruence.
           ++ destruct (keeps_handler e w2) as (K1 & K2 & _).
              destruct (handler e w2) as [o w'] eqn:E. simpl in *.
              exists o, w'. repeat split; congruence.
           ++ eexists _, _. split; [reflexivity |]. repeat split; congruence.
    + destruct (keeps_handler e w) as (H1 & H2 & _).
      destruct (handler e w) as [o w'] eqn:E. simpl in *.
      exists o, w'. repeat split; congruence.
    + eexists _, _. split; [reflexivity |]. repeat split; congruence.
  - destruct (keeps_handler e w) as (H1 & H2 & _).
    destruct (handler e w) as [o w'] eqn:E. simpl in *.
    exists o, w'. repeat split; congruence.
Qed.

Lemma main_files (w : world) :
  rules_yml (snd (main w)) = rules_yml w /\
  out_file (snd (main w))
  = match rules_yml w with
    | Parsed rules =>
        match generate_all_alerts_sql rules, out_open w with
        | Ok doc, None => Some (written w doc)
        | _, _ => out_file w
        end
    | LoadFails _ => out_file w
    end.
Proof.
  destruct (main_run w) as (o & w' & -> & H). exact H.
Qed.

(** A rendering that raises keeps the loop from finishing. *)
Lemma render_loop_raises (g : value) (entries : list (string * value))
    (name : string) (a : value) (e : exn) :
  In (name, a) entries ->
  generate_alert_sql a g = Raise e ->
  forall acc parts, render_loop g entries acc <> Ok parts.
Proof.
  intros Hin Hraise acc parts H.
  apply render_loop_parts in H. destruct H as (stmts & Hall & _).
  clear acc parts. induction Hall as [| entry stmt entries stmts Hs _ IH].
  - contradiction.
  - destruct Hin as [-> | Hin]; [| now apply IH].
    simpl in Hs. congruence.
Qed.

Lemma render_fails_not_Ok (w : world) (rules : value) :
  render_fails w -> rules_yml w = Parsed rules ->
  forall doc, generate_all_alerts_sql rules <> Ok doc.
Proof.
  intros (rules' & g & entries & name & a & e & Hr & Hg & Ha & Hin & He)
    Hr' doc H.
  rewrite Hr in Hr'. injection Hr' as ->.
  unfold generate_all_alerts_sql in H.
  rewrite (supplied_getitem _ _ _ Hg), (supplied_getitem _ _ _ Ha) in H.
  simpl in H. bind_inv H.
  now apply (render_loop_raises g entries name a e Hin He) in Hx.
Qed.

(** C7, as stated, fails: the run is not atomic with respect to the output
    file.  When the configuration loads and the batch renders, the file is
    opened for writing, which empties it, and a write that then fails (here
    after ten characters) leaves a part of the document: neither what the
    file held before nor the whole batch. *)
Lemma C7_counterexample :
  exists doc,
    generate_all_alerts_sql example_rules = Ok doc /\
    out_file failing_write_world = Some "former output" /\
    out_file (snd (main failing_write_world)) = Some "-- Databri" /\
    out_file (snd (main failing_write_world)) <> out_file failing_write_world /\
    out_file (snd (main failing_write_world)) <> Some doc.
Proof.
  eexists. split; [reflexivity |].
  split; [reflexivity |].
  split; [reflexivity |].
  split; vm_compute; discriminate.
Qed.

(** C7, amended. A run whose configuration fails to load, or in which the
    rendering of some alert raises, leaves the output file as it was: the
    file is not even opened.  With rules.yml missing the run prints the
    missing-file message and ends.  The output file never holds the
    statements of a part of the alerts: it is changed only when the whole
    batch has rendered and the file has been opened, and then it holds the
    whole document, or, when the write itself fails, the characters of the
    document written before the failure. *)
Theorem C7_no_output_on_failure (w : world) :
  (load_fails w \/ render_fails w -> out_file (snd (main w)) = out_file w) /\
  (rules_yml w = LoadFails FileNotFoundError ->
   main w = (Ok tt, printed w [missing_file_message])) /\
  (out_file (snd (main w)) = out_file w \/
   exists rules doc,
     rules_yml w = Parsed rules /\
     generate_all_alerts_sql rules = Ok doc /\
     out_open w = None /\
     out_file (snd (main w))
     = Some match out_write w with
            | None => doc
            | Some (n, _) => substring 0 n doc
            end).
Proof.
  destruct (main_files w) as (_ & Hout).
  split; [| split].
  - intros [(e & He) | Hfail].
    + rewrite Hout, He. reflexivity.
    + rewrite Hout.
      destruct (rules_yml w) as [rules | e] eqn:Hr; [| reflexivity].
      pose proof (render_fails_not_Ok w rules Hfail Hr) as Hno.
      destruct (generate_all_alerts_sql rules) as [doc | e | ];
        [now elim (Hno doc) | reflexivity | reflexivity].
  - intros Hr. unfold main, try_except, pbind, load_rules.
    rewrite Hr. reflexivity.
  - rewrite Hout.
    destruct (rules_yml w) as [rules | e]; [| now left].
    destruct (generate_all_alerts_sql rules) as [doc | e | ] eqn:Hdoc;
      [| now left | now left].
    destruct (out_open w); [now left |].
    right. exists rules, doc. repeat split; assumption.
Qed.

Lemma C7_witness :
  out_file (snd (main missing_world)) = out_file missing_world /\
  out_file (snd (main broken_world)) = out_file broken_world /\
  main missing_world
  = (Ok tt, printed missing_world [missing_file_message]).
Proof.
  split; [| split].
  - apply (proj1 (C7_no_output_on_failure missing_world)).
    left. exists FileNotFoundError. reflexivity.
  - apply (proj1 (C7_no_output_on_failure broken_world)).
    right.
    exists broken_rules, example_global,
      [("first", example_alert); ("second", VDict [("description", VStr "d")])],
      "second", (VDict [("description", VStr "d")]), KeyError.
    repeat split; try reflexivity.
    simpl. right. left. reflexivity.
  - apply (proj1 (proj2 (C7_no_output_on_failure missing_world))).
    reflexivity.
Defined.

(** * Further properties of the alert renderer *)

Lemma show_item_supplied (obj : value) (key text : string) :
  show_item obj key = Ok text ->
  exists v, supplied obj key = Some v /\ py_str v = Ok text.
Proof.
  unfold show_item. intros H. bind_inv H.
  exists x. split; [now apply getitem_supplied | exact H].
Qed.

(** X1. A rule renders only if it supplies query_template, description,
    display_name, comparison_operator and threshold_value. *)
Theorem X1_rule_keys_required (a g : value) (sql key : string) :
  generate_alert_sql a g = Ok sql ->
  In key required_rule_keys ->
  exists v, supplied a key = Some v.
Proof.
  intros H Hin. apply generate_alert_sql_reads in H.
  destruct H as (f & Hf & _).
  destruct (rd_template _ _ _ Hf) as (template & _ & _ & Ht & _).
  destruct (show_item_supplied _ _ _ (rd_description _ _ _ Hf)) as (v1 & H1 & _).
  destruct (show_item_supplied _ _ _ (rd_display_name _ _ _ Hf))
    as (v2 & H2 & _).
  destruct (show_item_supplied _ _ _ (rd_comparison_operator _ _ _ Hf))
    as (v3 & H3 & _).
  destruct (show_item_supplied _ _ _ (rd_threshold_value _ _ _ Hf))
    as (v4 & H4 & _).
  simpl in Hin.
  destruct Hin as [<- | [<- | [<- | [<- | [<- | []]]]]]; eauto.
Qed.

Lemma X1_witness :
  exists sql,
    generate_alert_sql example_alert example_global = Ok sql /\
    In "threshold_value" required_rule_keys /\
    exists v, supplied example_alert "threshold_value" = Some v.
Proof.
  eexists. split; [reflexivity |].
  split; [simpl; tauto |].
  apply (X1_rule_keys_required example_alert example_global _
           "threshold_value" eq_refl).
  simpl. tauto.
Defined.

(** X2. A rule renders only if the global settings supply catalog, schema,
    warehouse_id, user_email, notify_on_ok, retrigger_seconds, timezone_id
    and pause_status; catalog and schema are needed even by a template that
    names neither. *)
Theorem X2_global_keys_required (a g : value) (sql key : string) :
  generate_alert_sql a g = Ok sql ->
  In key required_global_keys ->
  exists v, supplied g key = Some v.
Proof.
  intros H Hin. apply generate_alert_sql_reads in H.
  destruct H as (f & Hf & _).
  destruct (rd_template _ _ _ Hf) as (template & c & s & _ & Hc & Hs & _).
  destruct (show_item_supplied _ _ _ (rd_warehouse_id _ _ _ Hf)) as (v1 & H1 & _).
  destruct (show_item_supplied _ _ _ (rd_user_email _ _ _ Hf)) as (v2 & H2 & _).
  destruct (rd_notify_on_ok _ _ _ Hf) as (shown & Hn & _).
  destruct (show_item_supplied _ _ _ Hn) as (v3 & H3 & _).
  destruct (show_item_supplied _ _ _ (rd_retrigger_seconds _ _ _ Hf))
    as (v4 & H4 & _).
  destruct (show_item_supplied _ _ _ (rd_timezone_id _ _ _ Hf)) as (v5 & H5 & _).
  destruct (show_item_supplied _ _ _ (rd_pause_status _ _ _ Hf))
    as (v6 & H6 & _).
  simpl in Hin.
  destruct Hin
    as [<- | [<- | [<- | [<- | [<- | [<- | [<- | [<- | []]]]]]]]]; eauto.
Qed.

Lemma X2_witness :
  exists sql,
    generate_alert_sql null_alert example_global = Ok sql /\
    In "catalog" required_global_keys /\
    exists v, supplied example_global "catalog" = Some v.
Proof.
  eexists. split; [reflexivity |].
  split; [simpl; tauto |].
  apply (X2_global_keys_required null_alert example_global _ "catalog" eq_refl).
  simpl. tauto.
Defined.

(** X3. A rule that is not a mapping with a text query_template fails before
    the global settings are looked at: with TypeError when the rule is not a
    mapping, KeyError when it has no query_template, AttributeError when the
    query_template is not text. *)
Theorem X3_rule_checked_before_global (a g : value) :
  (forall template, supplied a "query_template" <> Some (VStr template)) ->
  generate_alert_sql a g
  = Raise match a with
          | VDict d =>
              match lookup "query_template" d with
              | None => KeyError
              | Some _ => AttributeError
              end
          | _ => TypeError
          end.
Proof.
  intros Hno. unfold generate_alert_sql.
  destruct a as [ | | | | d | ]; try reflexivity.
  simpl in Hno. cbn [getitem bind].
  destruct (lookup "query_template" d) as [v | ]; [| reflexivity].
  destruct v; try reflexivity. now elim (Hno s).
Qed.

Lemma X3_witness :
  generate_alert_sql (VDict [("query_template", VInt 7)]) VNone
  = Raise AttributeError.
Proof.
  apply (X3_rule_checked_before_global (VDict [("query_template", VInt 7)])
           VNone).
  intros template H. simpl in H. discriminate.
Defined.





(** X6. Doubling the quotes loses nothing: reading the escaped text back as
    the body of an SQL literal gives the text again, so two different query
    texts never share an escaped form. *)
Theorem X6_escape_round_trip (s t : string) :
  sql_unescape (replace_char quote "''" s) = s /\
  (replace_char quote "''" s = replace_char quote "''" t -> s = t).
Proof.
  assert (Hrt : forall u, sql_unescape (replace_char quote "''" u) = u).
  { induction u as [| c u IH]; [reflexivity |].
    cbn [replace_char]. destruct (Ascii.eqb c quote) eqn:E.
    - apply Ascii.eqb_eq in E. subst c.
      change ("''" ++ replace_char quote "''" u)
        with (String quote (String quote (replace_char quote "''" u))).
      cbn [sql_unescape]. rewrite Ascii.eqb_refl. now rewrite IH.
    - cbn [sql_unescape]. rewrite E. now rewrite IH. }
  split; [apply Hrt |].
  intros H. rewrite <- (Hrt s), <- (Hrt t). now rewrite H.
Qed.

Lemma X6_witness :
  sql_unescape (replace_char quote "''" "it's") = "it's" /\
  (replace_char quote "''" "it's" = replace_char quote "''" "it's" ->
   "it's" = "it's").
Proof. exact (X6_escape_round_trip "it's" "it's"). Defined.

(** X7. The escaped query text never ends the literal it is put in: read as
    the body of a single-quoted SQL literal, it holds no quote that stands
    alone. *)
Theorem X7_escaped_text_stays_in_literal (s : string) :
  closes_literal (replace_char quote "''" s) = false.
Proof.
  induction s as [| c s IH]; [reflexivity |].
  cbn [replace_char]. destruct (Ascii.eqb c quote) eqn:E.
  - change ("''" ++ replace_char quote "''" s)
      with (String quote (String quote (replace_char quote "''" s))).
    cbn [closes_literal]. rewrite Ascii.eqb_refl. exact IH.
  - cbn [closes_literal]. rewrite E. exact IH.
Qed.




(** ** The exceptions of the renderer *)

Lemma raises_only_Ok {A : Type} (P : exn -> Prop) (a : A) :
  raises_only P (Ok a).
Proof. intros e H. discriminate. Qed.

Lemma raises_only_Beyond {A : Type} (P : exn -> Prop) :
  raises_only P (@Beyond A).
Proof. intros e H. discriminate. Qed.

Lemma raises_only_bind {A B : Type} (P : exn -> Prop) (m : outcome A)
    (k : A -> outcome B) :
  raises_only P m ->
  (forall a, m = Ok a -> raises_only P (k a)) ->
  raises_only P (bind m k).
Proof.
  intros Hm Hk e H. destruct m as [a | e' | ]; simpl in H.
  - now apply (Hk a eq_refl).
  - apply Hm. injection H as <-. reflexivity.
  - discriminate.
Qed.

Lemma raises_only_getitem (obj : value) (key : string) :
  raises_only renderer_exn (getitem obj key).
Proof.
  intros e H. unfold renderer_exn.
  destruct obj; simpl in H; try (injection H as <-; tauto).
  destruct (lookup key d); [discriminate | injection H as <-; tauto].
Qed.

Lemma raises_only_get_method (obj : value) :
  raises_only renderer_exn (get_method obj).
Proof.
  intros e H. unfold renderer_exn.
  destruct obj; simpl in H; try (injection H as <-; tauto). discriminate.
Qed.

Lemma raises_only_items (obj : value) :
  raises_only renderer_exn (items obj).
Proof.
  intros e H. unfold renderer_exn.
  destruct obj; simpl in H; try (injection H as <-; tauto). discriminate.
Qed.

Lemma raises_only_py_str (P : exn -> Prop) (v : value) :
  raises_only P (py_str v).
Proof. intros e H. destruct v as [ | [] | | | | ]; discriminate. Qed.

Lemma raises_only_py_lower (P : exn -> Prop) (s : string) :
  raises_only P (py_lower s).
Proof.
  intros e H. unfold py_lower in H.
  destruct (string_forallb is_ascii s); discriminate.
Qed.

Lemma raises_only_show_item (obj : value) (key : string) :
  raises_only renderer_exn (show_item obj key).
Proof.
  apply raises_only_bind; [apply raises_only_getitem |].
  intros v _. apply raises_only_py_str.
Qed.

Lemma raises_only_get_field (kwargs : list (string * value)) (name : string) :
  raises_only renderer_exn (get_field kwargs name).
Proof.
  intros e H. unfold get_field in H. unfold renderer_exn.
  destruct (negb (string_forallb is_ascii name)); [discriminate |].
  destruct (String.eqb name ""); [injection H as <-; tauto |].
  destruct (string_forallb is_digit name).
  - destruct (String.length name <? 10)%nat;
      [injection H as <-; tauto | discriminate].
  - destruct (lookup name kwargs) as [v | ];
      [exact (raises_only_py_str renderer_exn v e H)
      | injection H as <-; tauto].
Qed.

Lemma raises_only_scan (kwargs : list (string * value)) (s : string) :
  forall st, raises_only renderer_exn (scan kwargs st s).
Proof.
  assert (HV : renderer_exn ValueError) by (unfold renderer_exn; tauto).
  assert (Hfield : forall name s',
             (forall st, raises_only renderer_exn (scan kwargs st s')) ->
             raises_only renderer_exn
               (v <- get_field kwargs name ;;
                r <- scan kwargs Text s' ;; Ok (v ++ r))).
  { intros name s' IH. apply raises_only_bind; [apply raises_only_get_field |].
    intros v _. apply raises_only_bind; [apply IH |].
    intros r _. apply raises_only_Ok. }
  assert (Hemit : forall c s',
             (forall st, raises_only renderer_exn (scan kwargs st s')) ->
             raises_only renderer_exn (emit c (scan kwargs Text s'))).
  { intros c s' IH. apply raises_only_bind; [apply IH |].
    intros r _. apply raises_only_Ok. }
  induction s as [| c s IH]; intros st.
  - intros e H. destruct st; simpl in H; try discriminate;
      now injection H as <-.
  - destruct st; cbn [scan].
    + destruct (Ascii.eqb c "{"); [apply IH |].
      destruct (Ascii.eqb c "}"); [apply IH | now apply Hemit].
    + destruct (Ascii.eqb c "{"); [now apply Hemit |].
      destruct (Ascii.eqb c "}"); [now apply Hfield |].
      destruct (is_field_special c); [apply raises_only_Beyond | apply IH].
    + destruct (Ascii.eqb c "}"); [now apply Hemit |].
      intros e H. now injection H as <-.
    + destruct (Ascii.eqb c "}"); [now apply Hfield |].
      destruct (Ascii.eqb c "{"); [intros e H; now injection H as <- |].
      destruct (is_field_special c); [apply raises_only_Beyond | apply IH].
Qed.

Lemma raises_only_fstring (P : exn -> Prop) (ps : list piece) :
  Forall (fun p => match p with
                   | Lit _ => True
                   | Sub e => raises_only P e
                   end) ps ->
  raises_only P (fstring ps).
Proof.
  induction 1 as [| p ps Hp _ IH]; [apply raises_only_Ok |].
  destruct p as [s | e]; cbn [fstring].
  - apply raises_only_bind; [exact IH |]. intros r _. apply raises_only_Ok.
  - apply raises_only_bind; [exact Hp |]. intros v _.
    apply raises_only_bind; [exact IH |]. intros r _. apply raises_only_Ok.
Qed.

Lemma raises_only_generate_alert_sql (a g : value) :
  raises_only renderer_exn (generate_alert_sql a g).
Proof.
  unfold generate_alert_sql.
  apply raises_only_bind; [apply raises_only_getitem |]. intros template _.
  apply raises_only_bind.
  { intros e H. unfold renderer_exn.
    destruct template; simpl in H; try (injection H as <-; tauto).
    discriminate. }
  intros format Hformat.
  apply raises_only_bind; [apply raises_only_getitem |]. intros catalog _.
  apply raises_only_bind; [apply raises_only_getitem |]. intros schema _.
  apply raises_only_bind.
  { destruct template; try discriminate. injection Hformat as <-.
    apply raises_only_scan. }
  intros query_text _.
  apply raises_only_fstring.
  repeat first [apply Forall_nil | apply Forall_cons];
    try exact I; try apply raises_only_show_item; try apply raises_only_Ok.
  - apply raises_only_bind; [apply raises_only_get_method |].
    intros get _. apply raises_only_py_str.
  - apply raises_only_bind; [apply raises_only_getitem |]. intros v _.
    apply raises_only_bind; [apply raises_only_py_str |]. intros s _.
    apply raises_only_py_lower.
  - apply raises_only_bind; [apply raises_only_get_method |]. intros get _.
    apply raises_only_bind; [apply raises_only_get_method |]. intros gg _.
    apply raises_only_py_str.
Qed.

Lemma raises_only_render_loop (g : value) (entries : list (string * value)) :
  forall acc, raises_only renderer_exn (render_loop g entries acc).
Proof.
  induction entries as [| [name a] entries IH]; intros acc; cbn [render_loop].
  - apply raises_only_Ok.
  - apply raises_only_bind; [apply raises_only_generate_alert_sql |].
    intros sql _. apply IH.
Qed.

Lemma raises_only_generate_all_alerts_sql (rules : value) :
  raises_only renderer_exn (generate_all_alerts_sql rules).
Proof.
  unfold generate_all_alerts_sql.
  apply raises_only_bind; [apply raises_only_getitem |]. intros g _.
  apply raises_only_bind; [apply raises_only_getitem |]. intros alerts _.
  apply raises_only_bind; [apply raises_only_items |]. intros entries _.
  apply raises_only_bind; [apply raises_only_render_loop |]. intros parts _.
  apply raises_only_Ok.
Qed.

(** * Further properties of the batch renderer *)

Lemma render_loop_Ok (g : value) (entries : list (string * value))
    (stmts : list string) :
  Forall2 (fun entry stmt => generate_alert_sql (snd entry) g = Ok stmt)
    entries stmts ->
  forall acc,
    render_loop g entries acc = Ok (acc ++ flat_map cell_parts stmts)%list.
Proof.
  induction 1 as [| [name a] stmt entries stmts Hs _ IH]; intros acc.
  - simpl. now rewrite app_nil_r.
  - cbn [render_loop]. simpl in Hs. rewrite Hs. cbn [bind]. rewrite IH.
    unfold list_append. simpl. now rewrite <- !app_assoc.
Qed.

Lemma render_loop_app (g : value) (es1 es2 : list (string * value)) :
  forall acc,
    render_loop g (es1 ++ es2) acc
    = (parts <- render_loop g es1 acc ;; render_loop g es2 parts).
Proof.
  induction es1 as [| [name a] es1 IH]; intros acc; [reflexivity |].
  cbn [app render_loop].
  destruct (generate_alert_sql a g) as [sql | e | ]; [| reflexivity ..].
  cbn [bind]. apply IH.
Qed.

Lemma py_join_snoc (sep x : string) (l : list string) :
  forall p, py_join sep (p :: l ++ [x]) = py_join sep (p :: l) ++ sep ++ x.
Proof.
  induction l as [| q l IH]; intros p; [reflexivity |].
  change (py_join sep (p :: (q :: l) ++ [x]))
    with (p ++ sep ++ py_join sep (q :: l ++ [x])).
  rewrite IH, py_join_cons, !append_assoc. reflexivity.
Qed.

(** The document of a batch whose alerts all render. *)
Lemma batch_document (rules g : value) (entries : list (string * value))
    (stmts : list string) :
  supplied rules "global" = Some g ->
  supplied rules "alerts" = Some (VDict entries) ->
  Forall2 (fun entry stmt => generate_alert_sql (snd entry) g = Ok stmt)
    entries stmts ->
  generate_all_alerts_sql rules
  = Ok (py_join cell_break (header :: stmts) ++ nl ++ nl ++ separator ++ nl).
Proof.
  intros Hg Ha Hall. unfold generate_all_alerts_sql.
  rewrite (supplied_getitem _ _ _ Hg), (supplied_getitem _ _ _ Ha).
  cbn [bind items]. rewrite (render_loop_Ok _ _ _ Hall). cbn [bind].
  f_equal. rewrite <- py_join_cells. unfold header.
  cbn [app]. rewrite !py_join_cons, !append_assoc. reflexivity.
Qed.

(** The statements behind a rendered batch. *)
Lemma batch_statements (rules g : value) (entries : list (string * value))
    (doc : string) :
  supplied rules "global" = Some g ->
  supplied rules "alerts" = Some (VDict entries) ->
  generate_all_alerts_sql rules = Ok doc ->
  exists stmts,
    Forall2 (fun entry stmt => generate_alert_sql (snd entry) g = Ok stmt)
      entries stmts.
Proof.
  intros Hg Ha H. unfold generate_all_alerts_sql in H.
  rewrite (supplied_getitem _ _ _ Hg), (supplied_getitem _ _ _ Ha) in H.
  cbn [bind items] in H. bind_inv H.
  apply render_loop_parts in Hx. destruct Hx as (stmts & Hall & _).
  now exists stmts.
Qed.

(** X10. When the document has its global settings and an alerts mapping
    and every alert renders, the batch renders: it is the header and the
    statements joined by the separator between blank lines, ended by a last
    separator line. *)
Theorem X10_batch_renders (rules g : value) (entries : list (string * value))
    (stmts : list string) :
  supplied rules "global" = Some g ->
  supplied rules "alerts" = Some (VDict entries) ->
  Forall2 (fun entry stmt => generate_alert_sql (snd entry) g = Ok stmt)
    entries stmts ->
  generate_all_alerts_sql rules
  = Ok (py_join cell_break (header :: stmts) ++ nl ++ nl ++ separator ++ nl).
Proof. apply batch_document. Qed.

Lemma X10_witness :
  exists s1 s2,
    generate_alert_sql example_alert example_global = Ok s1 /\
    generate_alert_sql braces_alert example_global = Ok s2 /\
    generate_all_alerts_sql example_rules
    = Ok (py_join cell_break [header; s1; s2]
          ++ nl ++ nl ++ separator ++ nl).
Proof.
  eexists _, _. split; [reflexivity |]. split; [reflexivity |].
  apply (X10_batch_renders example_rules example_global
           [("first", example_alert); ("second", braces_alert)]);
    [reflexivity | reflexivity |].
  repeat constructor.
Defined.

Lemma rendered_statements (g : value) (entries : list (string * value)) :
  Forall (fun entry => exists stmt, generate_alert_sql (snd entry) g = Ok stmt)
    entries ->
  exists stmts,
    Forall2 (fun entry stmt => generate_alert_sql (snd entry) g = Ok stmt)
      entries stmts.
Proof.
  induction 1 as [| entry entries [stmt Hs] _ [stmts IH]].
  - exists []. constructor.
  - exists (stmt :: stmts). now constructor.
Qed.

(** X11. The batch fails with the exception of the first alert that fails:
    when the alerts before it render and it raises, the batch raises the
    same exception, whatever the alerts after it are. *)
Theorem X11_first_failure_decides (rules g a : value)
    (before after : list (string * value)) (name : string) (e : exn) :
  supplied rules "global" = Some g ->
  supplied rules "alerts" = Some (VDict (before ++ (name, a) :: after)) ->
  Forall (fun entry => exists stmt, generate_alert_sql (snd entry) g = Ok stmt)
    before ->
  generate_alert_sql a g = Raise e ->
  generate_all_alerts_sql rules = Raise e.
Proof.
  intros Hg Ha Hbefore He. unfold generate_all_alerts_sql.
  rewrite (supplied_getitem _ _ _ Hg), (supplied_getitem _ _ _ Ha).
  cbn [bind items]. rewrite render_loop_app.
  destruct (rendered_statements _ _ Hbefore) as (stmts & Hall).
  rewrite (render_loop_Ok _ _ _ Hall). cbn [bind render_loop].
  rewrite He. reflexivity.
Qed.

Lemma X11_witness :
  generate_all_alerts_sql broken_rules = Raise KeyError.
Proof.
  apply (X11_first_failure_decides broken_rules example_global
           (VDict [("description", VStr "d")])
           [("first", example_alert)] [] "second" KeyError);
    try reflexivity.
  constructor; [| constructor]. eexists. reflexivity.
Defined.

(** X12. Adding an alert at the end of the mapping leaves the text written
    so far as it is: the new document is the old one followed by a blank
    line, the new statement, a blank line and a separator line. *)
Theorem X12_new_alert_appends (rules rules' g a : value)
    (entries : list (string * value)) (name doc stmt : string) :
  supplied rules "global" = Some g ->
  supplied rules "alerts" = Some (VDict entries) ->
  supplied rules' "global" = Some g ->
  supplied rules' "alerts" = Some (VDict (entries ++ [(name, a)])) ->
  generate_all_alerts_sql rules = Ok doc ->
  generate_alert_sql a g = Ok stmt ->
  generate_all_alerts_sql rules'
  = Ok (doc ++ nl ++ stmt ++ nl ++ nl ++ separator ++ nl).
Proof.
  intros Hg Ha Hg' Ha' Hdoc Hstmt.
  destruct (batch_statements _ _ _ _ Hg Ha Hdoc) as (stmts & Hall).
  rewrite (batch_document _ _ _ _ Hg Ha Hall) in Hdoc. injection Hdoc as <-.
  rewrite (batch_document rules' g (entries ++ [(name, a)]) (stmts ++ [stmt])
             Hg' Ha').
  - f_equal. rewrite py_join_snoc. unfold cell_break.
    rewrite !append_assoc. reflexivity.
  - apply Forall2_app; [exact Hall |]. now repeat constructor.
Qed.

Lemma X12_witness :
  exists doc stmt,
    generate_all_alerts_sql empty_rules = Ok doc /\
    generate_alert_sql example_alert example_global = Ok stmt /\
    generate_all_alerts_sql
      (VDict [ ("global", example_global);
               ("alerts", VDict [("first", example_alert)]) ])
    = Ok (doc ++ nl ++ stmt ++ nl ++ nl ++ separator ++ nl).
Proof.
  eexists _, _. split; [reflexivity |]. split; [reflexivity |].
  apply (X12_new_alert_appends empty_rules _ example_global example_alert
           [] "first"); reflexivity.
Defined.

Lemma render_loop_names (g : value) (es1 : list (string * value)) :
  forall es2 acc,
    map snd es1 = map snd es2 ->
    render_loop g es1 acc = render_loop g es2 acc.
Proof.
  induction es1 as [| [n1 a1] es1 IH]; intros [| [n2 a2] es2] acc H;
    try discriminate; [reflexivity |].
  simpl in H. injection H as <- H. cbn [render_loop].
  destruct (generate_alert_sql a1 g); [| reflexivity ..].
  cbn [bind]. now apply IH.
Qed.

(** X13. The names of the alerts play no part in the output: two documents
    with the same global settings and the same rules in the same order,
    under whatever names, give the same result. *)
Theorem X13_alert_names_unused (rules1 rules2 g : value)
    (es1 es2 : list (string * value)) :
  supplied rules1 "global" = Some g ->
  supplied rules2 "global" = Some g ->
  supplied rules1 "alerts" = Some (VDict es1) ->
  supplied rules2 "alerts" = Some (VDict es2) ->
  map snd es1 = map snd es2 ->
  generate_all_alerts_sql rules1 = generate_all_alerts_sql rules2.
Proof.
  intros Hg1 Hg2 Ha1 Ha2 Hsame. unfold generate_all_alerts_sql.
  rewrite (supplied_getitem _ _ _ Hg1), (supplied_getitem _ _ _ Hg2),
    (supplied_getitem _ _ _ Ha1), (supplied_getitem _ _ _ Ha2).
  cbn [bind items]. now rewrite (render_loop_names g es1 es2 _ Hsame).
Qed.

Lemma X13_witness :
  generate_all_alerts_sql example_rules
  = generate_all_alerts_sql
      (VDict [ ("global", example_global);
               ("alerts", VDict [ ("failed_logins", example_alert);
                                  ("new_admins", braces_alert) ]) ]).
Proof.
  apply (X13_alert_names_unused example_rules _ example_global
           [("first", example_alert); ("second", braces_alert)]
           [("failed_logins", example_alert); ("new_admins", braces_alert)]);
    reflexivity.
Defined.

(** * Further properties of the driver *)

Lemma print_printed (l : line) (w : world) :
  print l w = (Ok tt, printed w [l]).
Proof. reflexivity. Qed.

Lemma printed_app (w : world) (ls1 ls2 : list line) :
  printed (printed w ls1) ls2 = printed w (ls1 ++ ls2).
Proof. unfold printed. simpl. now rewrite app_assoc. Qed.

Lemma show_item_item_text (obj : value) (key text : string) :
  show_item obj key = Ok text -> item_text obj key = text.
Proof.
  intros H. apply show_item_supplied in H. destruct H as (v & Hv & Hp).
  unfold item_text, text_of. now rewrite Hv, Hp.
Qed.

(** The summary of alerts that render prints two lines for each. *)
Lemma summary_loop_prints (g : value) (entries : list (string * value)) :
  Forall (fun entry => exists stmt, generate_alert_sql (snd entry) g = Ok stmt)
    entries ->
  forall w,
    summary_loop entries w
    = (Ok tt,
       printed w (flat_map (fun entry => summary_lines_of (snd entry)) entries)).
Proof.
  induction 1 as [| [name config] entries [stmt Hs] _ IH]; intros w.
  - unfold printed. simpl. rewrite app_nil_r. now destruct w.
  - simpl in Hs. apply generate_alert_sql_reads in Hs.
    destruct Hs as (f & Hf & _).
    cbn [summary_loop flat_map snd]. unfold pbind, lift. cbn [fstring].
    rewrite (rd_display_name _ _ _ Hf), (rd_description _ _ _ Hf),
      (rd_comparison_operator _ _ _ Hf), (rd_threshold_value _ _ _ Hf).
    cbn [bind]. rewrite !print_printed, IH, !printed_app.
    unfold summary_lines_of.
    rewrite (show_item_item_text _ _ _ (rd_display_name _ _ _ Hf)),
      (show_item_item_text _ _ _ (rd_description _ _ _ Hf)),
      (show_item_item_text _ _ _ (rd_comparison_operator _ _ _ Hf)),
      (show_item_item_text _ _ _ (rd_threshold_value _ _ _ Hf)).
    rewrite !append_nil_r. reflexivity.
Qed.

(** A run that fails before writing is its handler, on the world as it
    was. *)
Lemma main_fails (w : world) (e : exn) :
  rules_yml w = LoadFails e \/
  (exists rules,
      rules_yml w = Parsed rules /\
      (generate_all_alerts_sql rules = Raise e \/
       (exists doc, generate_all_alerts_sql rules = Ok doc) /\
       out_open w = Some e)) ->
  main w = handler e w.
Proof.
  unfold main, try_except, pbind, load_rules, lift, write_output.
  intros [Hr | (rules & Hr & [Hg | ((doc & Hg) & Ho)])]; rewrite Hr.
  - reflexivity.
  - rewrite Hg. reflexivity.
  - rewrite Hg, Ho. reflexivity.
Qed.

(** X15. When the rendering raises, the run prints the unexpected-error
    line with that exception and changes nothing else: the output file is
    not touched, and the failure is never reported as a missing file or a
    parse error. *)
Theorem X15_render_failure_reported (w : world) (rules : value) (e : exn) :
  rules_yml w = Parsed rules ->
  generate_all_alerts_sql rules = Raise e ->
  main w = (Ok tt, printed w [PrintExn "❌ Unexpected error: " e]).
Proof.
  intros Hr Hg. rewrite (main_fails w e) by (right; exists rules; auto).
  destruct (raises_only_generate_all_alerts_sql rules e Hg)
    as [-> | [-> | [-> | [-> | ->]]]]; reflexivity.
Qed.

Lemma X15_witness :
  main broken_world
  = (Ok tt, printed broken_world [PrintExn "❌ Unexpected error: " KeyError]).
Proof.
  apply (X15_render_failure_reported broken_world broken_rules KeyError);
    reflexivity.
Defined.

(** X16. When the document renders but the output file cannot be opened
    because its directory is missing, the run prints the message that
    rules.yml was not found, although rules.yml was read, and leaves the
    output file as it was. *)
Theorem X16_missing_output_directory (w : world) (rules : value)
    (doc : string) :
  rules_yml w = Parsed rules ->
  generate_all_alerts_sql rules = Ok doc ->
  out_open w = Some FileNotFoundError ->
  main w = (Ok tt, printed w [missing_file_message]).
Proof.
  intros Hr Hg Ho.
  rewrite (main_fails w FileNotFoundError); [reflexivity |].
  right. exists rules. split; [exact Hr |]. right. split; [| exact Ho].
  now exists doc.
Qed.

Lemma X16_witness :
  exists doc,
    generate_all_alerts_sql example_rules = Ok doc /\
    main unwritable_world
    = (Ok tt, printed unwritable_world [missing_file_message]).
Proof.
  eexists. split; [reflexivity |].
  eapply (X16_missing_output_directory unwritable_world example_rules);
    reflexivity.
Defined.

(** X17. When loading fails with anything but a missing file, the run
    prints one line, the parse-error line for a YAML error and the
    unexpected-error line otherwise, and changes nothing else. *)
Theorem X17_load_failure_reported (w : world) (e : exn) :
  rules_yml w = LoadFails e ->
  e <> FileNotFoundError ->
  main w
  = (Ok tt,
     printed w
       [ PrintExn match e with
                  | YAMLError => "❌ Error parsing YAML: "
                  | _ => "❌ Unexpected error: "
                  end e ]).
Proof.
  intros Hr Hne. rewrite (main_fails w e) by now left.
  destruct e; try reflexivity. now elim Hne.
Qed.

Lemma X17_witness :
  main unparsable_world
  = (Ok tt,
     printed unparsable_world [PrintExn "❌ Error parsing YAML: " YAMLError]).
Proof.
  apply (X17_load_failure_reported unparsable_world YAMLError);
    [reflexivity | discriminate].
Defined.

(** X18. When the configuration loads, the batch renders, the output file
    can be opened and the write does not fail, the run writes the whole
    document to the output file, replacing what was there, and prints the
    success line, the number of alerts, the summary heading and two summary
    lines for each alert, in the order of the mapping. *)
Theorem X18_successful_run (w : world) (rules g : value)
    (entries : list (string * value)) (doc : string) :
  rules_yml w = Parsed rules ->
  supplied rules "global" = Some g ->
  supplied rules "alerts" = Some (VDict entries) ->
  generate_all_alerts_sql rules = Ok doc ->
  out_open w = None ->
  out_write w = None ->
  main w
  = (Ok tt,
     mkWorld (rules_yml w) (Some doc) (out_open w) (out_write w)
       (console w ++ success_lines entries)).
Proof.
  intros Hr Hg Ha Hdoc Ho Hw.
  destruct (batch_statements _ _ _ _ Hg Ha Hdoc) as (stmts & Hall).
  assert (Hren : Forall (fun entry =>
                           exists stmt,
                             generate_alert_sql (snd entry) g = Ok stmt)
                   entries).
  { clear - Hall. induction Hall; constructor; eauto. }
  unfold main, try_except, pbind, load_rules, lift, write_output, written.
  rewrite Hr, Hdoc, Ho, Hw, !print_printed, (supplied_getitem _ _ _ Ha).
  cbn [py_len items]. rewrite print_printed, print_printed.
  rewrite (summary_loop_prints g entries Hren).
  rewrite !printed_app. unfold printed, success_lines.
  cbn [rules_yml out_file out_open out_write console].
  rewrite ?Hr, ?Ho, ?Hw. reflexivity.
Qed.

Lemma X18_witness :
  exists doc,
    generate_all_alerts_sql example_rules = Ok doc /\
    main example_world
    = (Ok tt,
       mkWorld (rules_yml example_world) (Some doc) (out_open example_world)
         (out_write example_world)
         (console example_world
          ++ success_lines [("first", example_alert);
                            ("second", braces_alert)])).
Proof.
  eexists. split; [reflexivity |].
  eapply (X18_successful_run example_world example_rules example_global);
    reflexivity.
Defined.

(** * Further error behaviour *)

(** X19. A document that is not a mapping holding global settings and an
    alerts mapping makes the batch renderer raise: TypeError when the
    document is not a mapping, KeyError when global or alerts is missing,
    AttributeError when alerts is not a mapping (an empty [alerts:] key
    among them). *)
Theorem X19_malformed_document (rules : value) :
  ~ (exists g entries,
        supplied rules "global" = Some g /\
        supplied rules "alerts" = Some (VDict entries)) ->
  generate_all_alerts_sql rules
  = Raise match rules with
          | VDict d =>
              match lookup "global" d, lookup "alerts" d with
              | Some _, Some _ => AttributeError
              | _, _ => KeyError
              end
          | _ => TypeError
          end.
Proof.
  intros Hno. unfold generate_all_alerts_sql.
  destruct rules as [ | | | | d | ]; try reflexivity.
  cbn [getitem bind]. simpl in Hno.
  destruct (lookup "global" d) as [g | ]; [| reflexivity]. cbn [bind].
  destruct (lookup "alerts" d) as [alerts | ]; [| reflexivity]. cbn [bind].
  destruct alerts as [ | | | | entries | ]; try reflexivity.
  elim Hno. now exists g, entries.
Qed.

Lemma X19_witness :
  generate_all_alerts_sql
    (VDict [("global", example_global); ("alerts", VNone)])
  = Raise AttributeError.
Proof.
  apply (X19_malformed_document
           (VDict [("global", example_global); ("alerts", VNone)])).
  intros (g & entries & _ & H). simpl in H. discriminate.
Defined.

(** Formatting goes from left to right: after a piece that formats, the
    rest is formatted on its own. *)
Lemma scan_app (kwargs : list (string * value)) (before rest : string) :
  forall st shown,
    scan kwargs st before = Ok shown ->
    scan kwargs st (before ++ rest)
    = (r <- scan kwargs Text rest ;; Ok (shown ++ r)).
Proof.
  assert (Hemit : forall c m shown,
             emit c m = Ok shown ->
             exists r, m = Ok r /\ shown = String c r).
  { intros c m shown H. unfold emit in H. bind_inv H. injection H as <-.
    now exists x. }
  induction before as [| c before IH]; intros st shown H.
  - destruct st; simpl in H; try discriminate. injection H as <-.
    cbn [String.append]. now destruct (scan kwargs Text rest).
  - change (String c before ++ rest) with (String c (before ++ rest)).
    destruct st; cbn [scan] in H |- *.
    + destruct (Ascii.eqb c "{"); [now apply IH |].
      destruct (Ascii.eqb c "}"); [now apply IH |].
      apply Hemit in H. destruct H as (r & Hr & ->).
      rewrite (IH _ _ Hr). unfold emit.
      now destruct (scan kwargs Text rest).
    + destruct (Ascii.eqb c "{").
      { apply Hemit in H. destruct H as (r & Hr & ->).
        rewrite (IH _ _ Hr). unfold emit.
        now destruct (scan kwargs Text rest). }
      destruct (Ascii.eqb c "}").
      { bind_inv H. bind_inv H. injection H as <-.
        rewrite Hx, (IH _ _ Hx0). cbn [bind].
        destruct (scan kwargs Text rest); cbn [bind]; try reflexivity.
        now rewrite append_assoc. }
      destruct (is_field_special c); [discriminate | now apply IH].
    + destruct (Ascii.eqb c "}"); [| discriminate].
      apply Hemit in H. destruct H as (r & Hr & ->).
      rewrite (IH _ _ Hr). unfold emit.
      now destruct (scan kwargs Text rest).
    + destruct (Ascii.eqb c "}").
      { bind_inv H. bind_inv H. injection H as <-.
        rewrite Hx, (IH _ _ Hx0). cbn [bind].
        destruct (scan kwargs Text rest); cbn [bind]; try reflexivity.
        now rewrite append_assoc. }
      destruct (Ascii.eqb c "{"); [discriminate |].
      destruct (is_field_special c); [discriminate | now apply IH].
Qed.

Lemma plain_char_scan (c : ascii) :
  plain_char c = true ->
  Ascii.eqb c "{" = false /\ Ascii.eqb c "}" = false /\
  is_field_special c = false /\ is_ascii c = true.
Proof.
  unfold plain_char, is_brace. intros H.
  apply andb_true_iff in H. destruct H as (H & Hs).
  apply andb_true_iff in H. destruct H as (Ha & Hb).
  apply negb_true_iff, orb_false_iff in Hb. apply negb_true_iff in Hs.
  tauto.
Qed.

Lemma scan_field_name (kwargs : list (string * value)) (name after : string) :
  string_forallb plain_char name = true ->
  forall acc,
    scan kwargs (Field acc) (name ++ String "}" after)
    = (v <- get_field kwargs (acc ++ name) ;;
       r <- scan kwargs Text after ;; Ok (v ++ r)).
Proof.
  induction name as [| c name IH]; intros Hplain acc.
  - rewrite append_nil_r. reflexivity.
  - cbn [string_forallb] in Hplain.
    apply andb_true_iff in Hplain. destruct Hplain as (Hc & Hplain).
    destruct (plain_char_scan c Hc) as (Ho & Hcl & Hsp & _).
    change (scan kwargs (Field acc) (String c (name ++ String "}" after))
            = (v <- get_field kwargs (acc ++ String c name) ;;
               r <- scan kwargs Text after ;; Ok (v ++ r))).
    cbn [scan]. rewrite Ho, Hcl, Hsp, (IH Hplain).
    now rewrite append_assoc.
Qed.

Lemma string_forallb_weaken (p q : ascii -> bool) (s : string) :
  (forall c, p c = true -> q c = true) ->
  string_forallb p s = true -> string_forallb q s = true.
Proof.
  intros Hpq. induction s as [| c s IH]; [reflexivity |].
  cbn [string_forallb]. intros H.
  apply andb_true_iff in H. destruct H as (Hc & Hs).
  now rewrite (Hpq c Hc), (IH Hs).
Qed.

(** X20. A query_template that names a placeholder other than catalog and
    schema, after text that formats, makes the rendering fail with KeyError,
    whatever follows the placeholder and whatever else the rule and the
    global settings hold. *)
Theorem X20_unknown_placeholder (a g catalog schema : value)
    (before shown name after : string) :
  supplied a "query_template"
  = Some (VStr (before ++ "{" ++ name ++ "}" ++ after)) ->
  supplied g "catalog" = Some catalog ->
  supplied g "schema" = Some schema ->
  scan [("catalog", catalog); ("schema", schema)] Text before = Ok shown ->
  plain_name name = true ->
  name <> "catalog" ->
  name <> "schema" ->
  generate_alert_sql a g = Raise KeyError.
Proof.
  intros Ht Hc Hs Hbefore Hname Hnc Hns. unfold generate_alert_sql.
  rewrite (supplied_getitem _ _ _ Ht). cbn [bind format_method].
  rewrite (supplied_getitem _ _ _ Hc), (supplied_getitem _ _ _ Hs).
  cbn [bind]. rewrite (scan_app _ _ _ _ _ Hbefore).
  unfold plain_name in Hname.
  apply andb_true_iff in Hname. destruct Hname as (Hplain & Hdigits).
  apply negb_true_iff in Hdigits.
  destruct name as [| c name]; [discriminate |].
  cbn [string_forallb] in Hplain.
  apply andb_true_iff in Hplain. destruct Hplain as (Hc1 & Hplain).
  destruct (plain_char_scan c Hc1) as (Ho & Hcl & Hsp & Hascii).
  change ("{" ++ String c name ++ "}" ++ after)
    with (String "{" (String c (name ++ String "}" after))).
  cbn [scan]. rewrite Ascii.eqb_refl, Ho, Hcl, Hsp.
  rewrite (scan_field_name _ _ _ Hplain).
  change (String c "" ++ name) with (String c name).
  assert (Hget : get_field [("catalog", catalog); ("schema", schema)]
                   (String c name) = Raise KeyError).
  { unfold get_field.
    assert (Hall : string_forallb is_ascii (String c name) = true).
    { cbn [string_forallb]. rewrite Hascii. simpl.
      apply (string_forallb_weaken plain_char); [| exact Hplain].
      intros c' H'. now destruct (plain_char_scan c' H') as (_ & _ & _ & ?). }
    rewrite Hall, Hdigits. cbn [negb].
    remember (String c name) as n eqn:En.
    destruct (String.eqb n "") eqn:E0.
    { apply String.eqb_eq in E0. subst n. discriminate. }
    cbn [lookup].
    destruct (String.eqb n "catalog") eqn:E1.
    { apply String.eqb_eq in E1. now elim Hnc. }
    destruct (String.eqb n "schema") eqn:E2.
    { apply String.eqb_eq in E2. now elim Hns. }
    reflexivity. }
  rewrite Hget. reflexivity.
Qed.

Lemma X20_witness :
  generate_alert_sql
    (VDict [("query_template", VStr "SELECT * FROM {catalog}.{table} t")])
    example_global
  = Raise KeyError.
Proof.
  apply (X20_unknown_placeholder
           (VDict [("query_template",
                    VStr "SELECT * FROM {catalog}.{table} t")])
           example_global (VStr "sec") (VStr "detect")
           "SELECT * FROM {catalog}." "SELECT * FROM sec." "table" " t");
    try reflexivity; discriminate.
Defined.
